(** * IPTS stylus driver (stylus.c): report decoding, tool switching and
    input-device life cycle

    A shallow embedding of [src/stylus.c].  The driver talks to the Linux
    input core; the calls it makes ([input_report_key], [input_report_abs],
    [input_sync], [input_allocate_device], ...) are modelled on a small state
    of that core: the live device structures, the registered devices and the
    queue of events received so far. *)

From Stdlib Require Import ZArith List Bool Lia String.
From Stdlib.Strings Require Import Byte.
From stdpp Require Import base option gmap.
Import ListNotations.

Local Open Scope Z_scope.

(** ** Fixed-width integers *)

Definition u8 (z : Z) : Z := z mod 256.
Definition u16 (z : Z) : Z := z mod 65536.

(** C truth value of an integer. *)
Definition truthy (z : Z) : bool := negb (z =? 0).

(** ** Constants of the Linux input interface (linux/input-event-codes.h,
    errno) *)

Definition EV_SYN : Z := 0.
Definition EV_KEY : Z := 1.
Definition EV_ABS : Z := 3.
Definition SYN_REPORT : Z := 0.

Definition BTN_TOOL_PEN : Z := 320.     (* 0x140 *)
Definition BTN_TOOL_RUBBER : Z := 321.  (* 0x141 *)
Definition BTN_TOUCH : Z := 330.        (* 0x14a *)
Definition BTN_STYLUS : Z := 331.       (* 0x14b *)

Definition ABS_X : Z := 0.
Definition ABS_Y : Z := 1.
Definition ABS_PRESSURE : Z := 24.      (* 0x18 *)
Definition ABS_TILT_X : Z := 26.        (* 0x1a *)
Definition ABS_TILT_Y : Z := 27.        (* 0x1b *)
Definition ABS_MISC : Z := 40.          (* 0x28 *)

Definition INPUT_PROP_POINTER : Z := 0.
Definition INPUT_PROP_DIRECT : Z := 1.

Definition ENOMEM : Z := 12.

Definition KEY_RESERVED : Z := 0.

(** ** Declarations of the driver's own headers

    [protocol/enums.h], [protocol/touch.h], [quirks.h] and [math.h] are
    included by stylus.c but are not part of the sources at hand.  What
    stylus.c uses from them is collected here: the mode bit masks, the quirk
    bit, the size and the field offsets of the two wire records, the bus
    type, and the tilt conversion of math.c, taken as a function from
    (altitude, azimuth) to the pair it stores in [tx] and [ty]. *)

Class ipts_headers := {
  IPTS_STYLUS_REPORT_MODE_PROXIMITY : Z;
  IPTS_STYLUS_REPORT_MODE_TOUCH : Z;
  IPTS_STYLUS_REPORT_MODE_BUTTON : Z;
  IPTS_STYLUS_REPORT_MODE_RUBBER : Z;
  IPTS_QUIRKS_NTRIG_DIGITIZER : Z;
  BUS_MEI : Z;
  (* struct ipts_stylus_report: sizeof and offsetof *)
  sizeof_report : Z;
  off_mode : Z;
  off_x : Z;
  off_y : Z;
  off_pressure : Z;
  off_altitude : Z;
  off_azimuth : Z;
  off_timestamp : Z;
  (* struct ipts_stylus_report_ntrig: sizeof and offsetof *)
  sizeof_report_ntrig : Z;
  off_ntrig_mode : Z;
  off_ntrig_x : Z;
  off_ntrig_y : Z;
  off_ntrig_pressure : Z;
  (* void ipts_math_altitude_azimuth_to_tilt(alt, azm, &tx, &ty) *)
  ipts_math_altitude_azimuth_to_tilt : Z -> Z -> Z * Z
}.

(** ** Data *)

(** Modelled from the spec: the field types of [struct ipts_stylus_report]
    (protocol/touch.h is missing): a mode byte and 16-bit x, y, pressure,
    altitude, azimuth and timestamp. *)
Record ipts_stylus_report := {
  mode : Z;
  x : Z;
  y : Z;
  pressure : Z;
  altitude : Z;
  azimuth : Z;
  timestamp : Z
}.

(** Modelled from the spec: [struct ipts_stylus_report_ntrig], the legacy
    record, which lacks altitude, azimuth and timestamp. *)
Record ipts_stylus_report_ntrig := {
  ntrig_mode : Z;
  ntrig_x : Z;
  ntrig_y : Z;
  ntrig_pressure : Z
}.

(** [struct ipts_touch_data] as stylus.c uses it: the id of the buffer and
    the payload bytes [data[]].  [data] gives the byte found at every offset
    from the start of the payload; [data_size] is the length of the buffer that
    was actually delivered, so offsets from [data_size] on lie past the buffer.
    stylus.c never looks at [data_size]. *)
Record ipts_touch_data := {
  data_size : Z;
  buffer : Z;
  data : Z -> byte
}.

Record ipts_device_info := {
  vendor_id : Z;
  device_id : Z;
  fw_rev : Z
}.

(** A pointer to a [struct input_dev]: [None] is NULL. *)
Definition input_dev_ptr := option positive.

(** The fields of [struct ipts_context] that stylus.c reads or writes. *)
Record ipts_context := {
  stylus : input_dev_ptr;
  stylus_tool : Z;
  quirks : Z;
  device_info : ipts_device_info
}.

(** ** The input core *)

Record input_event := {
  ev_type : Z;
  ev_code : Z;
  ev_value : Z
}.

Record input_absinfo := {
  minimum : Z;
  maximum : Z;
  fuzz : Z;
  flat : Z;
  resolution : Z
}.

Record input_id := {
  bustype : Z;
  vendor : Z;
  product : Z;
  version : Z
}.

Record input_dev := {
  propbit : gset Z;
  evbit : gset Z;
  keybit : gset Z;
  absinfo : gmap Z input_absinfo;
  dev_id : input_id;
  phys : string;
  name : string
}.

(** State of the input core: the device structures that are allocated and
    not yet released, the devices that are registered, the events received
    (oldest first, each with the device it was reported on), the kernel log,
    and a flag raised when a device is handed to the core that is not live
    (a stale or null pointer). *)
Record input_core := {
  devices : gmap positive input_dev;
  registered : gset positive;
  events : list (input_dev_ptr * input_event);
  klog : list (string * string * Z);
  fault : bool
}.

Record world := {
  ipts : ipts_context;
  input : input_core
}.

(** ** A state monad over [world] *)

Definition M (A : Type) : Type := world -> A * world.

#[global] Instance M_ret : MRet M := fun A a w => (a, w).
#[global] Instance M_bind : MBind M :=
  fun A B f m w => let (a, w') := m w in f a w'.

Definition exec {A} (m : M A) (w : world) : world := snd (m w).
Definition result {A} (m : M A) (w : world) : A := fst (m w).

Definition get_ipts : M ipts_context := fun w => (ipts w, w).
Definition set_ipts (c : ipts_context) : M unit :=
  fun w => (tt, {| ipts := c; input := input w |}).
Definition get_input : M input_core := fun w => (input w, w).
Definition set_input (k : input_core) : M unit :=
  fun w => (tt, {| ipts := ipts w; input := k |}).

(** [ipts->stylus_tool = tool] and [ipts->stylus = p] *)
Definition set_stylus_tool (tool : Z) : M unit :=
  c ← get_ipts;
  set_ipts {| stylus := stylus c; stylus_tool := tool;
              quirks := quirks c; device_info := device_info c |}.

Definition set_stylus (p : input_dev_ptr) : M unit :=
  c ← get_ipts;
  set_ipts {| stylus := p; stylus_tool := stylus_tool c;
              quirks := quirks c; device_info := device_info c |}.

(** *** Operations of the input core *)

Definition is_live (k : input_core) (dev : input_dev_ptr) : bool :=
  match dev with
  | Some p => bool_decide (is_Some (devices k !! p))
  | None => false
  end.

(** [input_event(dev, type, code, value)]: the event is queued for [dev]. *)
Definition input_event_ (dev : input_dev_ptr) (type code value : Z) : M unit :=
  k ← get_input;
  set_input {| devices := devices k; registered := registered k;
               events := events k ++
                 [(dev, {| ev_type := type; ev_code := code; ev_value := value |})];
               klog := klog k;
               fault := fault k || negb (is_live k dev) |}.

(** linux/input.h: [input_report_key] passes [!!value]. *)
Definition input_report_key (dev : input_dev_ptr) (code value : Z) : M unit :=
  input_event_ dev EV_KEY code (Z.b2z (truthy value)).

Definition input_report_abs (dev : input_dev_ptr) (code value : Z) : M unit :=
  input_event_ dev EV_ABS code value.

Definition input_sync (dev : input_dev_ptr) : M unit :=
  input_event_ dev EV_SYN SYN_REPORT 0.

(** ** Report handling (stylus.c) *)

Section Stylus.
Context {H : ipts_headers}.

(** Lines 22-30: the tilt of a report; the converter is called only for a
    non-zero altitude and overwrites the zero-initialised [tx], [ty]. *)
Definition report_tilt (report : ipts_stylus_report) : Z * Z :=
  if truthy (altitude report) then
    ipts_math_altitude_azimuth_to_tilt (altitude report) (azimuth report)
  else (0, 0).

(** Lines 32-35: the tool a report is about. *)
Definition report_tool (report : ipts_stylus_report) : Z :=
  let prox := u8 (Z.land (mode report) IPTS_STYLUS_REPORT_MODE_PROXIMITY) in
  let rubber := u8 (Z.land (mode report) IPTS_STYLUS_REPORT_MODE_RUBBER) in
  if truthy prox && truthy rubber then BTN_TOOL_RUBBER else BTN_TOOL_PEN.

Definition ipts_stylus_handle_report (report : ipts_stylus_report) : M unit :=
  let prox := u8 (Z.land (mode report) IPTS_STYLUS_REPORT_MODE_PROXIMITY) in
  let touch := u8 (Z.land (mode report) IPTS_STYLUS_REPORT_MODE_TOUCH) in
  let button := u8 (Z.land (mode report) IPTS_STYLUS_REPORT_MODE_BUTTON) in
  let '(tx, ty) := report_tilt report in
  let tool := report_tool report in
  (* Fake proximity out to switch tools *)
  c ← get_ipts;
  (if negb (stylus_tool c =? tool) then
     input_report_key (stylus c) (stylus_tool c) 0;;
     input_sync (stylus c);;
     set_stylus_tool tool
   else mret tt);;
  c ← get_ipts;
  input_report_key (stylus c) BTN_TOUCH touch;;
  input_report_key (stylus c) (stylus_tool c) prox;;
  input_report_key (stylus c) BTN_STYLUS button;;
  input_report_abs (stylus c) ABS_X (x report);;
  input_report_abs (stylus c) ABS_Y (y report);;
  input_report_abs (stylus c) ABS_PRESSURE (pressure report);;
  input_report_abs (stylus c) ABS_MISC (timestamp report);;
  input_report_abs (stylus c) ABS_TILT_X tx;;
  input_report_abs (stylus c) ABS_TILT_Y ty;;
  input_sync (stylus c).

(** *** Reading the wire records *)

Definition data_u8 (d : ipts_touch_data) (off : Z) : Z :=
  Z.of_N (Byte.to_N (data d off)).

(** A 16-bit field, least significant byte first. *)
Definition data_u16 (d : ipts_touch_data) (off : Z) : Z :=
  data_u8 d off + 256 * data_u8 d (off + 1).

(** [((struct ipts_stylus_report * )&data->data[40])[i]] *)
Definition wire_report (d : ipts_touch_data) (i : Z) : ipts_stylus_report :=
  let base := 40 + i * sizeof_report in
  {| mode := data_u8 d (base + off_mode);
     x := data_u16 d (base + off_x);
     y := data_u16 d (base + off_y);
     pressure := data_u16 d (base + off_pressure);
     altitude := data_u16 d (base + off_altitude);
     azimuth := data_u16 d (base + off_azimuth);
     timestamp := data_u16 d (base + off_timestamp) |}.

(** [((struct ipts_stylus_report_ntrig * )&data->data[44])[i]] *)
Definition wire_report_ntrig (d : ipts_touch_data) (i : Z)
  : ipts_stylus_report_ntrig :=
  let base := 44 + i * sizeof_report_ntrig in
  {| ntrig_mode := data_u8 d (base + off_ntrig_mode);
     ntrig_x := data_u16 d (base + off_ntrig_x);
     ntrig_y := data_u16 d (base + off_ntrig_y);
     ntrig_pressure := data_u16 d (base + off_ntrig_pressure) |}.

(** Lines 70-80: the report built from the [i]-th legacy record. *)
Definition ntrig_report (d : ipts_touch_data) (i : Z) : ipts_stylus_report :=
  let r := wire_report_ntrig d i in
  {| mode := ntrig_mode r;
     x := ntrig_x r;
     y := ntrig_y r;
     pressure := ntrig_pressure r;
     (* The NTRIG digitizers don't support tilting the stylus *)
     altitude := 0;
     azimuth := 0;
     (* Use the buffer ID to emulate a timestamp *)
     timestamp := u16 (buffer d) |}.

(** The loop [for (i = ...; i < count; i++) body(i)] with a [u8] counter.
    [fuel] bounds the number of iterations; [None] means it ran out. *)
Fixpoint for_u8 (fuel : nat) (body : Z -> M unit) (i count : Z) (w : world)
  : option world :=
  if i <? count then
    match fuel with
    | O => None
    | S fuel' => for_u8 fuel' body (u8 (i + 1)) count (exec (body i) w)
    end
  else Some w.

Definition ipts_stylus_parse_report_ntrig (d : ipts_touch_data) (w : world)
  : option world :=
  let count := data_u8 d 32 in
  for_u8 256 (fun i => ipts_stylus_handle_report (ntrig_report d i)) 0 count w.

Definition ipts_stylus_parse_report (d : ipts_touch_data) (w : world)
  : option world :=
  if truthy (Z.land (quirks (ipts w)) IPTS_QUIRKS_NTRIG_DIGITIZER) then
    ipts_stylus_parse_report_ntrig d w
  else
    let count := data_u8 d 32 in
    for_u8 256 (fun i => ipts_stylus_handle_report (wire_report d i)) 0 count w.

End Stylus.

(** ** Device life cycle (stylus.c, lines 104-162) *)

Definition blank_absinfo : input_absinfo :=
  {| minimum := 0; maximum := 0; fuzz := 0; flat := 0; resolution := 0 |}.

(** The zeroed structure [input_allocate_device] hands out. *)
Definition blank_dev : input_dev :=
  {| propbit := ∅; evbit := ∅; keybit := ∅; absinfo := ∅;
     dev_id := {| bustype := 0; vendor := 0; product := 0; version := 0 |};
     phys := EmptyString; name := EmptyString |}.

Definition set_devices (ds : gmap positive input_dev) (k : input_core)
  : input_core :=
  {| devices := ds; registered := registered k; events := events k;
     klog := klog k; fault := fault k |}.

Definition raise_fault (k : input_core) : input_core :=
  {| devices := devices k; registered := registered k; events := events k;
     klog := klog k; fault := true |}.

(** [input_allocate_device()]: NULL when the core has no memory ([ok] is
    false), else a pointer to a new zeroed device. *)
Definition input_allocate_device (ok : bool) : M input_dev_ptr :=
  k ← get_input;
  if ok then
    let p := fresh (dom (devices k)) in
    set_input (set_devices (<[p := blank_dev]> (devices k)) k);;
    mret (Some p)
  else mret None.

(** A write through [dev->...]: [f] is applied to the structure [dev] points
    to. *)
Definition update_dev (dev : input_dev_ptr) (f : input_dev -> input_dev)
  : M unit :=
  k ← get_input;
  match dev with
  | Some p =>
      if is_live k dev then set_input (set_devices (alter f p (devices k)) k)
      else set_input (raise_fault k)
  | None => set_input (raise_fault k)
  end.

(** [__set_bit(nr, dev->propbit)] *)
Definition set_propbit (dev : input_dev_ptr) (nr : Z) : M unit :=
  update_dev dev (fun d =>
    {| propbit := {[nr]} ∪ propbit d; evbit := evbit d; keybit := keybit d;
       absinfo := absinfo d; dev_id := dev_id d; phys := phys d;
       name := name d |}).

Definition absinfo_of (d : input_dev) (axis : Z) : input_absinfo :=
  default blank_absinfo (absinfo d !! axis).

(** [input_set_abs_params(dev, axis, min, max, fuzz, flat)] *)
Definition input_set_abs_params (dev : input_dev_ptr)
    (axis min max fuzz_ flat_ : Z) : M unit :=
  update_dev dev (fun d =>
    let a := {| minimum := min; maximum := max; fuzz := fuzz_; flat := flat_;
                resolution := resolution (absinfo_of d axis) |} in
    {| propbit := propbit d; evbit := {[EV_ABS]} ∪ evbit d; keybit := keybit d;
       absinfo := <[axis := a]> (absinfo d); dev_id := dev_id d;
       phys := phys d; name := name d |}).

(** [input_abs_set_res(dev, axis, val)] *)
Definition input_abs_set_res (dev : input_dev_ptr) (axis val : Z) : M unit :=
  update_dev dev (fun d =>
    let a0 := absinfo_of d axis in
    let a := {| minimum := minimum a0; maximum := maximum a0; fuzz := fuzz a0;
                flat := flat a0; resolution := val |} in
    {| propbit := propbit d; evbit := evbit d; keybit := keybit d;
       absinfo := <[axis := a]> (absinfo d); dev_id := dev_id d;
       phys := phys d; name := name d |}).

(** [input_set_capability(dev, EV_KEY, code)] *)
Definition input_set_capability_key (dev : input_dev_ptr) (code : Z) : M unit :=
  update_dev dev (fun d =>
    {| propbit := propbit d; evbit := {[EV_KEY]} ∪ evbit d;
       keybit := {[code]} ∪ keybit d; absinfo := absinfo d;
       dev_id := dev_id d; phys := phys d; name := name d |}).

Definition set_dev_id (dev : input_dev_ptr) (i : input_id) : M unit :=
  update_dev dev (fun d =>
    {| propbit := propbit d; evbit := evbit d; keybit := keybit d;
       absinfo := absinfo d; dev_id := i; phys := phys d; name := name d |}).

Definition set_phys_name (dev : input_dev_ptr) (ph nm : string) : M unit :=
  update_dev dev (fun d =>
    {| propbit := propbit d; evbit := evbit d; keybit := keybit d;
       absinfo := absinfo d; dev_id := dev_id d; phys := ph; name := nm |}).

(** [dev->name], read for the error message. *)
Definition get_name (dev : input_dev_ptr) : M string :=
  k ← get_input;
  mret (match dev with
        | Some p => default EmptyString (name <$> devices k !! p)
        | None => EmptyString
        end).

(** What a successful registration does to the structure: every device
    generates [EV_SYN] events, and [KEY_RESERVED] is never among its keys. *)
Definition registering (d : input_dev) : input_dev :=
  {| propbit := propbit d; evbit := {[EV_SYN]} ∪ evbit d;
     keybit := keybit d ∖ {[KEY_RESERVED]}; absinfo := absinfo d;
     dev_id := dev_id d; phys := phys d; name := name d |}.

(** [input_register_device(dev)]: [ret] is the core's answer, 0 on success,
    a negative errno otherwise; only on success is the device registered.
    On failure the structure is taken to be as it was handed in: the caller
    has to release it. *)
Definition input_register_device (ret : Z) (dev : input_dev_ptr) : M Z :=
  k ← get_input;
  match dev with
  | Some p =>
      if is_live k dev then
        (if ret =? 0 then
           set_input {| devices := alter registering p (devices k);
                        registered := {[p]} ∪ registered k;
                        events := events k; klog := klog k; fault := fault k |}
         else mret tt);;
        mret ret
      else set_input (raise_fault k);; mret ret
  | None => set_input (raise_fault k);; mret ret
  end.

(** [input_free_device(dev)]: releases the structure of a device that is
    not registered; a NULL argument is accepted and ignored. *)
Definition input_free_device (dev : input_dev_ptr) : M unit :=
  k ← get_input;
  match dev with
  | Some p =>
      if is_live k dev then set_input (set_devices (delete p (devices k)) k)
      else set_input (raise_fault k)
  | None => mret tt
  end.

(** [input_unregister_device(dev)]: removes a registered device and drops
    the structure. *)
Definition input_unregister_device (dev : input_dev_ptr) : M unit :=
  k ← get_input;
  match dev with
  | Some p =>
      if is_live k dev && bool_decide (p ∈ registered k) then
        set_input {| devices := delete p (devices k);
                     registered := registered k ∖ {[p]};
                     events := events k; klog := klog k; fault := fault k |}
      else set_input (raise_fault k)
  | None => set_input (raise_fault k)
  end.

(** [dev_err(ipts->dev, fmt, name, ret)] *)
Definition dev_err (fmt nm : string) (ret : Z) : M unit :=
  k ← get_input;
  set_input {| devices := devices k; registered := registered k;
               events := events k; klog := klog k ++ [(fmt, nm, ret)];
               fault := fault k |}.

(** The format of the error message, which ends with a newline. *)
Definition register_error_format : string :=
  String.append "Cannot register input device: %s (%d)"
    (String (Ascii.ascii_of_nat 10) EmptyString).

Section Lifecycle.
Context {H : ipts_headers}.

(** [alloc_ok] and [register_ret] are the input core's answers to
    [input_allocate_device] and [input_register_device]. *)
Definition ipts_stylus_init (alloc_ok : bool) (register_ret : Z) : M Z :=
  p ← input_allocate_device alloc_ok;
  set_stylus p;;
  c ← get_ipts;
  match stylus c with
  | None => mret (- ENOMEM)
  | Some _ =>
      let pressure :=
        if truthy (Z.land (quirks c) IPTS_QUIRKS_NTRIG_DIGITIZER)
        then 1024 else 4096 in
      set_stylus_tool BTN_TOOL_PEN;;
      c ← get_ipts;
      set_propbit (stylus c) INPUT_PROP_DIRECT;;
      set_propbit (stylus c) INPUT_PROP_POINTER;;
      input_set_abs_params (stylus c) ABS_X 0 9600 0 0;;
      input_abs_set_res (stylus c) ABS_X 34;;
      input_set_abs_params (stylus c) ABS_Y 0 7200 0 0;;
      input_abs_set_res (stylus c) ABS_Y 38;;
      input_set_abs_params (stylus c) ABS_PRESSURE 0 pressure 0 0;;
      input_set_abs_params (stylus c) ABS_TILT_X (-9000) 9000 0 0;;
      input_abs_set_res (stylus c) ABS_TILT_X 5730;;
      input_set_abs_params (stylus c) ABS_TILT_Y (-9000) 9000 0 0;;
      input_abs_set_res (stylus c) ABS_TILT_Y 5730;;
      input_set_abs_params (stylus c) ABS_MISC 0 65535 0 0;;
      input_set_capability_key (stylus c) BTN_TOUCH;;
      input_set_capability_key (stylus c) BTN_STYLUS;;
      input_set_capability_key (stylus c) BTN_TOOL_PEN;;
      input_set_capability_key (stylus c) BTN_TOOL_RUBBER;;
      (* the four fields of [struct input_id] are 16 bits wide *)
      set_dev_id (stylus c)
        {| bustype := u16 BUS_MEI;
           vendor := u16 (vendor_id (device_info c));
           product := u16 (device_id (device_info c));
           version := u16 (fw_rev (device_info c)) |};;
      set_phys_name (stylus c) "heci3" "Intel Precise Stylus";;
      ret ← input_register_device register_ret (stylus c);
      if truthy ret then
        nm ← get_name (stylus c);
        dev_err register_error_format nm ret;;
        input_free_device (stylus c);;
        mret ret
      else mret 0
  end.

Definition ipts_stylus_free : M unit :=
  c ← get_ipts;
  match stylus c with
  | None => mret tt
  | Some _ => input_unregister_device (stylus c)
  end.

End Lifecycle.

(** ** A set of header values for examples

    Single-bit mode flags, a 16-byte current record and a 12-byte legacy
    record, a quirk bit, and a constant stand-in for the tilt routine. *)

Definition sample_headers : ipts_headers := {|
  IPTS_STYLUS_REPORT_MODE_PROXIMITY := 1;
  IPTS_STYLUS_REPORT_MODE_TOUCH := 2;
  IPTS_STYLUS_REPORT_MODE_BUTTON := 4;
  IPTS_STYLUS_REPORT_MODE_RUBBER := 8;
  IPTS_QUIRKS_NTRIG_DIGITIZER := 1;
  BUS_MEI := 68;
  sizeof_report := 16;
  off_mode := 0; off_x := 2; off_y := 4; off_pressure := 6;
  off_altitude := 8; off_azimuth := 10; off_timestamp := 12;
  sizeof_report_ntrig := 12;
  off_ntrig_mode := 4; off_ntrig_x := 5; off_ntrig_y := 7;
  off_ntrig_pressure := 9;
  ipts_math_altitude_azimuth_to_tilt := fun alt azm => (alt, azm)
|}.

Definition sample_context (q : Z) : ipts_context :=
  {| stylus := None; stylus_tool := 0; quirks := q;
     device_info := {| vendor_id := 1; device_id := 2; fw_rev := 3 |} |}.

Definition empty_core : input_core :=
  {| devices := ∅; registered := ∅; events := []; klog := []; fault := false |}.

Definition boot (q : Z) : world :=
  {| ipts := sample_context q; input := empty_core |}.

(** ** The event vocabulary of the specification

    The specification names the events sent to the sink [SetTouch],
    [SetActive], [SetButton], [SetAxis] and [Flush]; these are the input
    events the driver reports. *)

Inductive ToolIdentity := Pen | Eraser.

Definition tool_code (t : ToolIdentity) : Z :=
  match t with
  | Pen => BTN_TOOL_PEN
  | Eraser => BTN_TOOL_RUBBER
  end.

Inductive Axis := X | Y | Pressure | Misc | TiltX | TiltY.

Definition axis_code (a : Axis) : Z :=
  match a with
  | X => ABS_X
  | Y => ABS_Y
  | Pressure => ABS_PRESSURE
  | Misc => ABS_MISC
  | TiltX => ABS_TILT_X
  | TiltY => ABS_TILT_Y
  end.

Definition key_event (code : Z) (b : bool) : input_event :=
  {| ev_type := EV_KEY; ev_code := code; ev_value := Z.b2z b |}.

Definition SetTouch (b : bool) : input_event := key_event BTN_TOUCH b.
Definition SetActive (t : ToolIdentity) (b : bool) : input_event :=
  key_event (tool_code t) b.
Definition SetButton (b : bool) : input_event := key_event BTN_STYLUS b.
Definition SetAxis (a : Axis) (v : Z) : input_event :=
  {| ev_type := EV_ABS; ev_code := axis_code a; ev_value := v |}.
Definition Flush : input_event :=
  {| ev_type := EV_SYN; ev_code := SYN_REPORT; ev_value := 0 |}.

(** The events [m] adds to the queue when run from [w]. *)
Definition emitted {A} (m : M A) (w : world)
  : list (input_dev_ptr * input_event) :=
  skipn (length (events (input w))) (events (input (exec m w))).

(** The same for a run that may not finish. *)
Definition emitted_by (run : world -> option world) (w : world)
  : option (list (input_dev_ptr * input_event)) :=
  w' ← run w;
  Some (skipn (length (events (input w))) (events (input w'))).

Section Vocabulary.
Context {H : ipts_headers}.

(** The flags of a report as the driver extracts them from the mode byte. *)
Definition mode_proximity (r : ipts_stylus_report) : bool :=
  truthy (u8 (Z.land (mode r) IPTS_STYLUS_REPORT_MODE_PROXIMITY)).
Definition mode_touch (r : ipts_stylus_report) : bool :=
  truthy (u8 (Z.land (mode r) IPTS_STYLUS_REPORT_MODE_TOUCH)).
Definition mode_button (r : ipts_stylus_report) : bool :=
  truthy (u8 (Z.land (mode r) IPTS_STYLUS_REPORT_MODE_BUTTON)).
Definition mode_rubber (r : ipts_stylus_report) : bool :=
  truthy (u8 (Z.land (mode r) IPTS_STYLUS_REPORT_MODE_RUBBER)).

(** The group of events of one report, for the tool code [tool] and the
    tilt [(tx, ty)]. *)
Definition report_group (tool : Z) (r : ipts_stylus_report) (tx ty : Z)
  : list input_event :=
  [ SetTouch (mode_touch r);
    key_event tool (mode_proximity r);
    SetButton (mode_button r);
    SetAxis X (x r);
    SetAxis Y (y r);
    SetAxis Pressure (pressure r);
    SetAxis Misc (timestamp r);
    SetAxis TiltX tx;
    SetAxis TiltY ty;
    Flush ].

(** The deactivation of the tool [old] and its flush. *)
Definition switch_pair (old : Z) : list input_event :=
  [ key_event old false; Flush ].

(** The world after one report: the tool is the report's, the queue has
    grown by the switch pair (on a tool change) and the report's group. *)
Definition after_report (r : ipts_stylus_report) (w : world) : world :=
  let old := stylus_tool (ipts w) in
  let new := report_tool r in
  let dev := stylus (ipts w) in
  {| ipts := {| stylus := dev; stylus_tool := new;
                quirks := quirks (ipts w);
                device_info := device_info (ipts w) |};
     input :=
       {| devices := devices (input w);
          registered := registered (input w);
          events := events (input w) ++
            map (pair dev)
              ((if old =? new then [] else switch_pair old) ++
               report_group new r (fst (report_tilt r)) (snd (report_tilt r)));
          klog := klog (input w);
          fault := fault (input w) || negb (is_live (input w) dev) |} |}.

(** Handling a list of reports one after the other. *)
Definition handle_reports (rs : list ipts_stylus_report) (w : world) : world :=
  fold_left (fun w r => exec (ipts_stylus_handle_report r) w) rs w.

(** The record indices [0 .. count-1] in wire order. *)
Definition indices (count : Z) : list Z :=
  map Z.of_nat (seq 0 (Z.to_nat count)).

(** The reports of a buffer, in wire order, for the format [ntrig]. *)
Definition wire_reports (ntrig : bool) (d : ipts_touch_data)
  : list ipts_stylus_report :=
  map (if ntrig then ntrig_report d else wire_report d)
      (indices (data_u8 d 32)).

Definition is_ntrig (w : world) : bool :=
  truthy (Z.land (quirks (ipts w)) IPTS_QUIRKS_NTRIG_DIGITIZER).



(** The mode flags are independent: non-zero byte masks that share no bit. *)
Definition byte_mask (m : Z) : Prop := 0 < m < 256.

Definition independent_mode_flags : Prop :=
  byte_mask IPTS_STYLUS_REPORT_MODE_PROXIMITY /\
  byte_mask IPTS_STYLUS_REPORT_MODE_TOUCH /\
  byte_mask IPTS_STYLUS_REPORT_MODE_BUTTON /\
  byte_mask IPTS_STYLUS_REPORT_MODE_RUBBER /\
  Z.land IPTS_STYLUS_REPORT_MODE_PROXIMITY IPTS_STYLUS_REPORT_MODE_TOUCH = 0 /\
  Z.land IPTS_STYLUS_REPORT_MODE_PROXIMITY IPTS_STYLUS_REPORT_MODE_BUTTON = 0 /\
  Z.land IPTS_STYLUS_REPORT_MODE_PROXIMITY IPTS_STYLUS_REPORT_MODE_RUBBER = 0 /\
  Z.land IPTS_STYLUS_REPORT_MODE_TOUCH IPTS_STYLUS_REPORT_MODE_BUTTON = 0 /\
  Z.land IPTS_STYLUS_REPORT_MODE_TOUCH IPTS_STYLUS_REPORT_MODE_RUBBER = 0 /\
  Z.land IPTS_STYLUS_REPORT_MODE_BUTTON IPTS_STYLUS_REPORT_MODE_RUBBER = 0.

(** The pressure maximum [ipts_stylus_init] declares for the session. *)
Definition pressure_max (w : world) : Z :=
  if is_ntrig w then 1024 else 4096.

End Vocabulary.

(** The headers [H] with another tilt routine. *)
Definition with_tilt (H : ipts_headers) (f : Z -> Z -> Z * Z) : ipts_headers :=
  {| IPTS_STYLUS_REPORT_MODE_PROXIMITY := IPTS_STYLUS_REPORT_MODE_PROXIMITY;
     IPTS_STYLUS_REPORT_MODE_TOUCH := IPTS_STYLUS_REPORT_MODE_TOUCH;
     IPTS_STYLUS_REPORT_MODE_BUTTON := IPTS_STYLUS_REPORT_MODE_BUTTON;
     IPTS_STYLUS_REPORT_MODE_RUBBER := IPTS_STYLUS_REPORT_MODE_RUBBER;
     IPTS_QUIRKS_NTRIG_DIGITIZER := IPTS_QUIRKS_NTRIG_DIGITIZER;
     BUS_MEI := BUS_MEI;
     sizeof_report := sizeof_report;
     off_mode := off_mode; off_x := off_x; off_y := off_y;
     off_pressure := off_pressure; off_altitude := off_altitude;
     off_azimuth := off_azimuth; off_timestamp := off_timestamp;
     sizeof_report_ntrig := sizeof_report_ntrig;
     off_ntrig_mode := off_ntrig_mode; off_ntrig_x := off_ntrig_x;
     off_ntrig_y := off_ntrig_y; off_ntrig_pressure := off_ntrig_pressure;
     ipts_math_altitude_azimuth_to_tilt := f |}.

Section Streams.
Context {H : ipts_headers}.

(** The events a list of reports adds to the queue of device [dev] when the
    session's tool is [tool] before the first of them. *)
Fixpoint events_of_reports (dev : input_dev_ptr) (tool : Z)
    (rs : list ipts_stylus_report) : list (input_dev_ptr * input_event) :=
  match rs with
  | [] => []
  | r :: rs' =>
      map (pair dev)
        ((if tool =? report_tool r then [] else switch_pair tool) ++
         report_group (report_tool r) r
           (fst (report_tilt r)) (snd (report_tilt r))) ++
      events_of_reports dev (report_tool r) rs'
  end.

End Streams.

(** An event on the absolute axis [code]. *)
Definition is_axis_event (code : Z) (pe : input_dev_ptr * input_event) : bool :=
  (ev_type (snd pe) =? EV_ABS) && (ev_code (snd pe) =? code).


(** The report of the end-to-end example: proximity and touch set, position
    (100, 200), pressure 50, no tilt. *)
Definition pen_touch_report {H : ipts_headers} (ts : Z) : ipts_stylus_report :=
  {| mode := Z.lor IPTS_STYLUS_REPORT_MODE_PROXIMITY
                   IPTS_STYLUS_REPORT_MODE_TOUCH;
     x := 100; y := 200; pressure := 50;
     altitude := 0; azimuth := 0; timestamp := ts |}.

(** A session brought up with the sample headers: the world after a
    successful [ipts_stylus_init] on a context with quirks [q]. *)
Definition session (q : Z) : world :=
  exec (@ipts_stylus_init sample_headers true 0) (boot q).

(** An eraser report for the sample headers (proximity and rubber set). *)
Definition eraser_report : ipts_stylus_report :=
  {| mode := 9; x := 10; y := 20; pressure := 0;
     altitude := 0; azimuth := 7; timestamp := 5 |}.

(** ** Worlds reached during initialisation *)

(** The world [w] with the device [d] stored at [p]. *)
Definition put_dev (p : positive) (d : input_dev) (w : world) : world :=
  {| ipts := ipts w;
     input := set_devices (<[p := d]> (devices (input w))) (input w) |}.

Definition with_ipts (c : ipts_context) (w : world) : world :=
  {| ipts := c; input := input w |}.

(** The device [d] after the write [f]. *)
Definition updated (f : input_dev -> input_dev) (d : input_dev) : input_dev :=
  f d.

Definition mark_registered (p : positive) (w : world) : world :=
  {| ipts := ipts w;
     input := {| devices := devices (input w);
                 registered := {[p]} ∪ registered (input w);
                 events := events (input w); klog := klog (input w);
                 fault := fault (input w) |} |}.

Definition log_err (fmt nm : string) (ret : Z) (w : world) : world :=
  {| ipts := ipts w;
     input := {| devices := devices (input w);
                 registered := registered (input w);
                 events := events (input w);
                 klog := klog (input w) ++ [(fmt, nm, ret)];
                 fault := fault (input w) |} |}.

(** The pointer [input_allocate_device] returns in [w]. *)
Definition new_dev (w : world) : positive := fresh (dom (devices (input w))).

(** The context after the device was allocated and the tool set. *)
Definition init_context (w : world) : ipts_context :=
  {| stylus := Some (new_dev w);
     stylus_tool := BTN_TOOL_PEN;
     quirks := quirks (ipts w);
     device_info := device_info (ipts w) |}.

(** ** Sample buffers *)


(** A current-format buffer with one record of pressure 5000 (bytes 0x88
    0x13 at the pressure field of the sample layout). *)
Definition heavy_buffer : ipts_touch_data :=
  {| data_size := 56; buffer := 7;
     data := fun off =>
       if off =? 32 then "001"%byte
       else if off =? 46 then "136"%byte
       else if off =? 47 then "019"%byte
       else "000"%byte |}.

(** A legacy buffer with one record of pressure 2000 (bytes 0xd0 0x07 at
    the pressure field of the sample legacy layout). *)
Definition heavy_buffer_ntrig : ipts_touch_data :=
  {| data_size := 56; buffer := 7;
     data := fun off =>
       if off =? 32 then "001"%byte
       else if off =? 53 then "208"%byte
       else if off =? 54 then "007"%byte
       else "000"%byte |}.

(** A legacy buffer with two records. *)
Definition two_records_ntrig : ipts_touch_data :=
  {| data_size := 68; buffer := 7;
     data := fun off =>
       if off =? 32 then "002"%byte
       else if off =? 48 then "003"%byte
       else if off =? 49 then "100"%byte
       else if off =? 60 then "009"%byte
       else "000"%byte |}.

(** A buffer that declares no record. *)
Definition empty_buffer : ipts_touch_data :=
  {| data_size := 40; buffer := 7; data := fun _ => "000"%byte |}.

(** ** The sink's view of the tool keys

    The input core keeps the state of every key of a device.  For the two
    tool keys this state is followed here: a pair (pen down, rubber down),
    updated by the key events as they arrive. *)

Definition tool_keys : Type := bool * bool.

Definition press (st : tool_keys) (pe : input_dev_ptr * input_event)
  : tool_keys :=
  if ev_type (snd pe) =? EV_KEY then
    (if ev_code (snd pe) =? BTN_TOOL_PEN
     then truthy (ev_value (snd pe)) else fst st,
     if ev_code (snd pe) =? BTN_TOOL_RUBBER
     then truthy (ev_value (snd pe)) else snd st)
  else st.

Definition keys_after (st : tool_keys)
    (l : list (input_dev_ptr * input_event)) : tool_keys :=
  fold_left press l st.

(** At most one of the two tools is down. *)
Definition one_tool (st : tool_keys) : bool := negb (fst st && snd st).

(** At most one tool is down before, between and after the events of [l]. *)
Fixpoint always_one_tool (st : tool_keys)
    (l : list (input_dev_ptr * input_event)) : bool :=
  one_tool st &&
  match l with
  | [] => true
  | pe :: l' => always_one_tool (press st pe) l'
  end.

(** No tool other than [tool] is down. *)
Definition idle_but (tool : Z) (st : tool_keys) : Prop :=
  (tool <> BTN_TOOL_PEN -> fst st = false) /\
  (tool <> BTN_TOOL_RUBBER -> snd st = false).

(** ** The device [ipts_stylus_init] sets up

    The structure as lines 113-143 and the registration leave it, for the
    context [c]: the two properties, the event types, the six axes with
    their ranges and resolutions, the four keys, the identity (16-bit
    fields) and the names. *)
Definition stylus_device {H : ipts_headers} (c : ipts_context) : input_dev :=
  let pressure :=
    if truthy (Z.land (quirks c) IPTS_QUIRKS_NTRIG_DIGITIZER)
    then 1024 else 4096 in
  let axis lo hi res :=
    {| minimum := lo; maximum := hi; fuzz := 0; flat := 0;
       resolution := res |} in
  {| propbit := {[INPUT_PROP_DIRECT; INPUT_PROP_POINTER]};
     evbit := {[EV_SYN; EV_KEY; EV_ABS]};
     keybit := {[BTN_TOUCH; BTN_STYLUS; BTN_TOOL_PEN; BTN_TOOL_RUBBER]};
     absinfo :=
       <[ABS_X := axis 0 9600 34]>
       (<[ABS_Y := axis 0 7200 38]>
       (<[ABS_PRESSURE := axis 0 pressure 0]>
       (<[ABS_TILT_X := axis (-9000) 9000 5730]>
       (<[ABS_TILT_Y := axis (-9000) 9000 5730]>
       (<[ABS_MISC := axis 0 65535 0]> ∅)))));
     dev_id := {| bustype := BUS_MEI mod 65536;
                  vendor := vendor_id (device_info c) mod 65536;
                  product := device_id (device_info c) mod 65536;
                  version := fw_rev (device_info c) mod 65536 |};
     phys := "heci3";
     name := "Intel Precise Stylus" |}.

(** A current-format buffer with one record: proximity and touch set,
    x = 100, for the sample layout. *)
Definition one_record : ipts_touch_data :=
  {| data_size := 56; buffer := 3;
     data := fun off =>
       if off =? 32 then "001"%byte
       else if off =? 40 then "003"%byte
       else if off =? 42 then "100"%byte
       else "000"%byte |}.

(** The registered devices of the input core are live. *)
Definition core_ok (k : input_core) : Prop :=
  registered k ⊆ dom (devices k).

(** The world and the events a buffer leaves behind with the sample
    headers (the world and no event if decoding does not return). *)
Definition decoded (d : ipts_touch_data) (w : world) : world :=
  default w (@ipts_stylus_parse_report sample_headers d w).

Definition decoded_events (d : ipts_touch_data) (w : world)
  : list (input_dev_ptr * input_event) :=
  default [] (emitted_by (@ipts_stylus_parse_report sample_headers d) w).

(** The number of tool changes along the tools [ts], starting from
    [tool]. *)
Fixpoint tool_changes (tool : Z) (ts : list Z) : nat :=
  match ts with
  | [] => O
  | t :: ts' =>
      ((if Z.eqb tool t then 0 else 1) + tool_changes t ts')%nat
  end.

(** A current-format report with altitude 30 and azimuth 60. *)
Definition tilted_report : ipts_stylus_report :=
  {| mode := 3; x := 1; y := 2; pressure := 3;
     altitude := 30; azimuth := 60; timestamp := 4 |}.

(** ** The wire layout in plain terms

    What the records of a buffer say, written out byte by byte: the count
    is the byte at offset 32; record [i] of the current format starts at
    offset [40 + i * sizeof], record [i] of the legacy format at offset
    [44 + i * sizeof]; a 16-bit field has its low byte first. *)

Definition byte_value (b : byte) : Z := Z.of_N (Byte.to_N b).

Definition le16_at (d : ipts_touch_data) (off : Z) : Z :=
  byte_value (data d off) + 256 * byte_value (data d (off + 1)).

Section Layout.
Context {H : ipts_headers}.

(** [r] is what record [i] of the buffer says in the current format. *)
Definition current_record_at (d : ipts_touch_data) (i : Z)
    (r : ipts_stylus_report) : Prop :=
  mode r = byte_value (data d (40 + i * sizeof_report + off_mode)) /\
  x r = le16_at d (40 + i * sizeof_report + off_x) /\
  y r = le16_at d (40 + i * sizeof_report + off_y) /\
  pressure r = le16_at d (40 + i * sizeof_report + off_pressure) /\
  altitude r = le16_at d (40 + i * sizeof_report + off_altitude) /\
  azimuth r = le16_at d (40 + i * sizeof_report + off_azimuth) /\
  timestamp r = le16_at d (40 + i * sizeof_report + off_timestamp).

(** [r] is what record [i] of the buffer says in the legacy format, with
    the fields the record lacks filled in: no tilt, and the buffer id cut
    to 16 bits as timestamp. *)
Definition legacy_record_at (d : ipts_touch_data) (i : Z)
    (r : ipts_stylus_report) : Prop :=
  mode r = byte_value (data d (44 + i * sizeof_report_ntrig + off_ntrig_mode)) /\
  x r = le16_at d (44 + i * sizeof_report_ntrig + off_ntrig_x) /\
  y r = le16_at d (44 + i * sizeof_report_ntrig + off_ntrig_y) /\
  pressure r = le16_at d (44 + i * sizeof_report_ntrig + off_ntrig_pressure) /\
  altitude r = 0 /\
  azimuth r = 0 /\
  timestamp r = buffer d mod 65536.

Definition record_at (ntrig : bool) (d : ipts_touch_data) (i : Z)
    (r : ipts_stylus_report) : Prop :=
  if ntrig then legacy_record_at d i r else current_record_at d i r.

End Layout.

(** The values sent on the axis [code], in the order of the events. *)
Fixpoint axis_values (code : Z) (l : list (input_dev_ptr * input_event))
  : list Z :=
  match l with
  | [] => []
  | pe :: l' =>
      if is_axis_event code pe then ev_value (snd pe) :: axis_values code l'
      else axis_values code l'
  end.

(** A legacy buffer with one record and the buffer id 65543. *)
Definition wide_id_buffer : ipts_touch_data :=
  {| data_size := 56; buffer := 65543;
     data := fun off => if off =? 32 then "001"%byte else "000"%byte |}.

(** A current-format buffer with two records for the sample layout: the
    first with proximity and touch, x = 100 and pressure 50, the second with
    proximity and rubber, x = 30 and pressure 70. *)
Definition two_records : ipts_touch_data :=
  {| data_size := 72; buffer := 3;
     data := fun off =>
       if off =? 32 then "002"%byte
       else if off =? 40 then "003"%byte
       else if off =? 42 then "100"%byte
       else if off =? 46 then "050"%byte
       else if off =? 56 then "009"%byte
       else if off =? 58 then "030"%byte
       else if off =? 62 then "070"%byte
       else "000"%byte |}.

(** * Properties *)

(** ** Integers and flags *)

Lemma u8_range z : 0 <= u8 z < 256.
Proof. unfold u8. apply Z.mod_pos_bound. lia. Qed.

Lemma u8_small z : 0 <= z < 256 -> u8 z = z.
Proof. intros Hz. unfold u8. apply Z.mod_small. exact Hz. Qed.

Lemma u16_small z : 0 <= z < 65536 -> u16 z = z.
Proof. intros Hz. unfold u16. apply Z.mod_small. exact Hz. Qed.

(** Masking a byte leaves a byte, so the conversion to [u8] changes
    nothing. *)
Lemma u8_land_byte m mask : 0 <= m < 256 -> u8 (Z.land m mask) = Z.land m mask.
Proof.
  intros Hm. unfold u8.
  change 256 with (2 ^ 8).
  rewrite <- Z.land_ones by lia.
  rewrite <- Z.land_assoc, (Z.land_comm mask), Z.land_assoc.
  rewrite Z.land_ones by lia.
  rewrite Z.mod_small by (change (2 ^ 8) with 256; lia).
  reflexivity.
Qed.

Lemma truthy_true z : truthy z = true <-> z <> 0.
Proof.
  unfold truthy. destruct (Z.eqb_spec z 0); simpl; split; intros; congruence.
Qed.

Lemma truthy_false z : truthy z = false <-> z = 0.
Proof.
  unfold truthy. destruct (Z.eqb_spec z 0); simpl; split; intros; congruence.
Qed.

Lemma tool_codes_differ : tool_code Pen <> tool_code Eraser.
Proof. discriminate. Qed.

Lemma byte_value_range b : 0 <= Z.of_N (Byte.to_N b) < 256.
Proof.
  pose proof (Byte.to_N_bounded b) as Hb.
  lia.
Qed.

Section ReportFacts.
Context {H : ipts_headers}.

Lemma data_u8_range d off : 0 <= data_u8 d off < 256.
Proof. apply byte_value_range. Qed.

Lemma data_u16_range d off : 0 <= data_u16 d off < 65536.
Proof.
  unfold data_u16.
  pose proof (data_u8_range d off). pose proof (data_u8_range d (off + 1)).
  lia.
Qed.

End ReportFacts.

(** ** One report *)

(** Runs the straight-line code of the driver on a world given by its
    fields. *)
Ltac run_world :=
  cbv [exec result mbind M_bind mret M_ret get_ipts set_ipts get_input set_input
       input_report_key input_report_abs input_sync input_event_
       set_stylus_tool set_stylus
       ipts input stylus stylus_tool quirks device_info
       devices registered events klog fault is_live fst snd negb].

Lemma orb_absorb (a b : bool) : a || b || b = a || b.
Proof. destruct a, b; reflexivity. Qed.

Lemma skipn_length_app {A} (l l' : list A) : skipn (length l) (l ++ l') = l'.
Proof. induction l as [|a l IH]; simpl; auto. Qed.

Section OneReport.
Context {H : ipts_headers}.

Lemma handle_report_run r w :
  ipts_stylus_handle_report r w = (tt, after_report r w).
Proof.
  unfold after_report, ipts_stylus_handle_report.
  destruct (report_tilt r) as [tx ty] eqn:Ht.
  destruct w as [[dev old q di] [ds rg evs kl ft]].
  cbn [ipts input stylus stylus_tool quirks device_info fst snd
       devices registered events klog fault].
  destruct (old =? report_tool r) eqn:Hsw.
  - apply Z.eqb_eq in Hsw. subst old.
    run_world. rewrite Z.eqb_refl. run_world.
    rewrite !orb_absorb, <- !app_assoc. reflexivity.
  - run_world. rewrite Hsw. run_world.
    rewrite !orb_absorb, <- !app_assoc. reflexivity.
Qed.

Lemma handle_report_exec r w :
  exec (ipts_stylus_handle_report r) w = after_report r w.
Proof. unfold exec. rewrite handle_report_run. reflexivity. Qed.

Lemma handle_report_emitted r w :
  emitted (ipts_stylus_handle_report r) w =
  map (pair (stylus (ipts w)))
    ((if stylus_tool (ipts w) =? report_tool r then []
      else switch_pair (stylus_tool (ipts w))) ++
     report_group (report_tool r) r (fst (report_tilt r)) (snd (report_tilt r))).
Proof.
  unfold emitted. rewrite handle_report_exec.
  unfold after_report. cbn [input events].
  apply skipn_length_app.
Qed.

Lemma report_tool_cases r :
  report_tool r =
  tool_code (if mode_proximity r && mode_rubber r then Eraser else Pen).
Proof.
  unfold report_tool, mode_proximity, mode_rubber.
  destruct (truthy _ && truthy _); reflexivity.
Qed.

End OneReport.

Section ReportClaims.
Context {H : ipts_headers}.

Lemma independent_flag_values :
  independent_mode_flags ->
  forall ts,
    mode_proximity (pen_touch_report ts) = true /\
    mode_touch (pen_touch_report ts) = true /\
    mode_button (pen_touch_report ts) = false /\
    mode_rubber (pen_touch_report ts) = false.
Proof.
  intros (Hp & Ht & Hb & Hr & Hpt & Hpb & Hpr & Htb & Htr & Hbr) ts.
  unfold byte_mask in *.
  unfold mode_proximity, mode_touch, mode_button, mode_rubber, pen_touch_report.
  cbn [mode].
  rewrite !Z.land_lor_distr_l, !Z.land_diag.
  rewrite (Z.land_comm IPTS_STYLUS_REPORT_MODE_TOUCH
                       IPTS_STYLUS_REPORT_MODE_PROXIMITY).
  rewrite Hpt, Hpb, Hpr, Htb, Htr.
  rewrite Z.lor_0_r, Z.lor_0_l. cbn [Z.lor].
  rewrite !u8_small by lia.
  repeat split.
  - apply truthy_true. lia.
  - apply truthy_true. lia.
Qed.

(** C2: in the Pen-active state, the report with proximity and touch set,
    x=100, y=200, pressure=50 and no tilt emits exactly the ten events
    SetTouch(true), SetActive(Pen,true), SetButton(false), SetAxis(X,100),
    SetAxis(Y,200), SetAxis(Pressure,50), SetAxis(Misc,timestamp),
    SetAxis(TiltX,0), SetAxis(TiltY,0), Flush, with no tool-switch pair in
    front. *)
Theorem pen_touch_report_events (w : world) (ts : Z) :
  independent_mode_flags ->
  stylus_tool (ipts w) = tool_code Pen ->
  emitted (ipts_stylus_handle_report (pen_touch_report ts)) w =
  map (pair (stylus (ipts w)))
    [ SetTouch true; SetActive Pen true; SetButton false;
      SetAxis X 100; SetAxis Y 200; SetAxis Pressure 50; SetAxis Misc ts;
      SetAxis TiltX 0; SetAxis TiltY 0; Flush ].
Proof.
  intros Hind Hpen.
  destruct (independent_flag_values Hind ts) as (Hp & Ht & Hb & Hr).
  rewrite handle_report_emitted.
  rewrite report_tool_cases, Hp, Hr, Hpen. cbn [andb].
  rewrite Z.eqb_refl. cbn [app].
  unfold report_group. rewrite Hp, Ht, Hb.
  reflexivity.
Qed.

(** C3: when the tool of the report differs from the session's active tool,
    the events of the report are preceded by the deactivation of the previous
    tool and a flush, and the active tool becomes the new one; when the two
    are equal, only the report's own group is emitted and the context is
    unchanged. *)
Theorem tool_switch_comes_first (r : ipts_stylus_report) (w : world) :
  (stylus_tool (ipts w) <> report_tool r ->
     emitted (ipts_stylus_handle_report r) w =
       map (pair (stylus (ipts w)))
         (key_event (stylus_tool (ipts w)) false :: Flush ::
          report_group (report_tool r) r
            (fst (report_tilt r)) (snd (report_tilt r))) /\
     stylus_tool (ipts (exec (ipts_stylus_handle_report r) w)) = report_tool r /\
     ev_code (key_event (stylus_tool (ipts w)) false) <> report_tool r /\
     ev_type Flush <> EV_KEY) /\
  (stylus_tool (ipts w) = report_tool r ->
     emitted (ipts_stylus_handle_report r) w =
       map (pair (stylus (ipts w)))
         (report_group (stylus_tool (ipts w)) r
            (fst (report_tilt r)) (snd (report_tilt r))) /\
     ipts (exec (ipts_stylus_handle_report r) w) = ipts w).
Proof.
  split.
  - intros Hne.
    rewrite handle_report_emitted, handle_report_exec.
    apply Z.eqb_neq in Hne. rewrite Hne.
    apply Z.eqb_neq in Hne.
    repeat split; try assumption. discriminate.
  - intros Heq.
    rewrite handle_report_emitted, handle_report_exec.
    rewrite <- Heq, Z.eqb_refl.
    split; [reflexivity|].
    unfold after_report. cbn [ipts]. rewrite <- Heq.
    destruct w as [[dev old q di] k]. reflexivity.
Qed.

(** C4: for a report with altitude 0, whatever its azimuth, the values sent
    on the TiltX and TiltY axes are 0, and the tilt converter plays no part:
    replacing it by any other function leaves the outcome the same. *)
Theorem zero_altitude_zero_tilt (r : ipts_stylus_report) (w : world) :
  altitude r = 0 ->
  report_tilt r = (0, 0) /\
  (exists pre,
     emitted (ipts_stylus_handle_report r) w =
     pre ++ map (pair (stylus (ipts w)))
              [SetAxis TiltX 0; SetAxis TiltY 0; Flush]) /\
  (forall p e,
     In (p, e) (emitted (ipts_stylus_handle_report r) w) ->
     ev_type e = EV_ABS ->
     ev_code e = ABS_TILT_X \/ ev_code e = ABS_TILT_Y ->
     ev_value e = 0) /\
  (forall f,
     @ipts_stylus_handle_report (with_tilt H f) r w =
     @ipts_stylus_handle_report H r w).
Proof.
  intros Halt.
  assert (Htilt : forall H', @report_tilt H' r = (0, 0)).
  { intros H'. unfold report_tilt. rewrite Halt. reflexivity. }
  split; [apply Htilt|].
  split; [|split].
  - rewrite handle_report_emitted, Htilt. cbn [fst snd].
    exists (map (pair (stylus (ipts w)))
              ((if stylus_tool (ipts w) =? report_tool r then []
                else switch_pair (stylus_tool (ipts w))) ++
               [ SetTouch (mode_touch r);
                 key_event (report_tool r) (mode_proximity r);
                 SetButton (mode_button r);
                 SetAxis X (x r); SetAxis Y (y r);
                 SetAxis Pressure (pressure r);
                 SetAxis Misc (timestamp r) ])).
    rewrite <- map_app, <- app_assoc. reflexivity.
  - intros p e Hin Hty Hcode.
    rewrite handle_report_emitted, Htilt in Hin. cbn [fst snd] in Hin.
    apply in_map_iff in Hin. destruct Hin as (e' & He' & Hin).
    injection He' as _ ->.
    apply in_app_or in Hin. destruct Hin as [Hin|Hin].
    + destruct (stylus_tool (ipts w) =? report_tool r); [destruct Hin|].
      destruct Hin as [<-|[<-|[]]]; discriminate Hty.
    + unfold report_group in Hin. cbn [In] in Hin.
      destruct Hcode as [Hcode|Hcode];
        repeat (destruct Hin as [<-|Hin];
                [try discriminate Hty; try discriminate Hcode; try reflexivity|]);
        destruct Hin.
  - intros f.
    rewrite (@handle_report_run (with_tilt H f)), (@handle_report_run H).
    unfold after_report. rewrite !Htilt. reflexivity.
Qed.

(** C5: the tool of a report is the eraser exactly when both the proximity
    and the rubber flag of its mode byte are set, and the pen in every other
    case; this is the tool the session is left with. *)
Theorem eraser_iff_proximity_and_rubber (r : ipts_stylus_report) :
  (report_tool r = tool_code Eraser <->
     mode_proximity r = true /\ mode_rubber r = true) /\
  (report_tool r = tool_code Pen <->
     ~ (mode_proximity r = true /\ mode_rubber r = true)) /\
  (forall w,
     stylus_tool (ipts (exec (ipts_stylus_handle_report r) w)) = report_tool r) /\
  (0 <= mode r < 256 ->
     mode_proximity r =
       truthy (Z.land (mode r) IPTS_STYLUS_REPORT_MODE_PROXIMITY) /\
     mode_rubber r =
       truthy (Z.land (mode r) IPTS_STYLUS_REPORT_MODE_RUBBER)).
Proof.
  rewrite report_tool_cases.
  repeat split.
  - destruct (mode_proximity r); [reflexivity|]. simpl in *. discriminate.
  - destruct (mode_proximity r), (mode_rubber r);
      try reflexivity; simpl in *; discriminate.
  - intros [-> ->]. reflexivity.
  - intros Hpen [Hp Hr]. rewrite Hp, Hr in Hpen. discriminate Hpen.
  - intros Hnot. destruct (mode_proximity r), (mode_rubber r);
      try reflexivity. exfalso. apply Hnot. split; reflexivity.
  - intros w. rewrite handle_report_exec. apply report_tool_cases.
  - unfold mode_proximity. rewrite u8_land_byte; auto.
  - unfold mode_rubber. rewrite u8_land_byte; auto.
Qed.

End ReportClaims.

(** ** Decoding a buffer *)


Section Decoding.
Context {H : ipts_headers}.

(** The counted loop ends, given fuel for its iterations, and runs the body
    on [i], [i+1], ..., [count-1] in this order. *)
Lemma for_u8_spec (body : Z -> M unit) :
  forall (n fuel : nat) (i count : Z) (w : world),
    0 <= i -> i + Z.of_nat n = count -> count < 256 -> (n <= fuel)%nat ->
    for_u8 fuel body i count w =
    Some (fold_left (fun w j => exec (body j) w)
            (map Z.of_nat (seq (Z.to_nat i) n)) w).
Proof.
  induction n as [|n IH]; intros fuel i count w Hi Hn Hc Hf.
  - assert (Hlt : (i <? count) = false) by (apply Z.ltb_ge; lia).
    destruct fuel; simpl; rewrite Hlt; reflexivity.
  - assert (Hlt : (i <? count) = true) by (apply Z.ltb_lt; lia).
    destruct fuel as [|fuel]; [lia|].
    simpl for_u8. rewrite Hlt.
    rewrite u8_small by lia.
    rewrite (IH fuel (i + 1) count) by lia.
    replace (Z.to_nat (i + 1)) with (S (Z.to_nat i)) by lia.
    simpl. rewrite Z2Nat.id by lia. reflexivity.
Qed.

Lemma handle_reports_map (f : Z -> ipts_stylus_report) (l : list Z) (w : world) :
  fold_left (fun w j => exec (ipts_stylus_handle_report (f j)) w) l w =
  handle_reports (map f l) w.
Proof.
  revert w. induction l as [|j l IH]; intros w; simpl; [reflexivity|].
  apply IH.
Qed.

Lemma parse_loop_spec (f : Z -> ipts_stylus_report) (d : ipts_touch_data)
    (w : world) :
  for_u8 256 (fun i => ipts_stylus_handle_report (f i)) 0 (data_u8 d 32) w =
  Some (handle_reports (map f (indices (data_u8 d 32))) w).
Proof.
  pose proof (data_u8_range d 32) as Hc.
  rewrite (for_u8_spec _ (Z.to_nat (data_u8 d 32))) by lia.
  rewrite handle_reports_map. reflexivity.
Qed.

(** Decoding always returns: it handles the reports of the buffer one after
    the other. *)
Lemma parse_report_spec (d : ipts_touch_data) (w : world) :
  ipts_stylus_parse_report d w =
  Some (handle_reports (wire_reports (is_ntrig w) d) w).
Proof.
  unfold ipts_stylus_parse_report, ipts_stylus_parse_report_ntrig,
    wire_reports, is_ntrig.
  destruct (truthy _); apply parse_loop_spec.
Qed.

Lemma indices_length (count : Z) :
  0 <= count -> Z.of_nat (length (indices count)) = count.
Proof.
  intros Hc. unfold indices. rewrite length_map, length_seq. lia.
Qed.

Lemma indices_nth (count i : Z) :
  0 <= i < count -> nth_error (indices count) (Z.to_nat i) = Some i.
Proof.
  intros Hi. unfold indices.
  rewrite nth_error_map, nth_error_seq.
  destruct (Nat.ltb_spec (Z.to_nat i) (Z.to_nat count)); [|lia].
  simpl. rewrite Z2Nat.id by lia. reflexivity.
Qed.

Lemma wire_reports_length ntrig d :
  Z.of_nat (length (wire_reports ntrig d)) = data_u8 d 32.
Proof.
  unfold wire_reports. rewrite length_map.
  apply indices_length. apply data_u8_range.
Qed.

Lemma wire_reports_nth ntrig d i :
  0 <= i < data_u8 d 32 ->
  nth_error (wire_reports ntrig d) (Z.to_nat i) =
  Some (if ntrig then ntrig_report d i else wire_report d i).
Proof.
  intros Hi. unfold wire_reports.
  rewrite nth_error_map, indices_nth by exact Hi.
  destruct ntrig; reflexivity.
Qed.

(** The queue after a list of reports. *)
Lemma handle_reports_events rs : forall w,
  events (input (handle_reports rs w)) =
  events (input w) ++
  events_of_reports (stylus (ipts w)) (stylus_tool (ipts w)) rs.
Proof.
  induction rs as [|r rs IH]; intros w; simpl.
  - rewrite app_nil_r. reflexivity.
  - fold (handle_reports rs (exec (ipts_stylus_handle_report r) w)).
    rewrite IH, handle_report_exec.
    unfold after_report. cbn [ipts input events stylus stylus_tool].
    rewrite <- app_assoc. reflexivity.
Qed.

Lemma handle_reports_emitted rs w :
  skipn (length (events (input w))) (events (input (handle_reports rs w))) =
  events_of_reports (stylus (ipts w)) (stylus_tool (ipts w)) rs.
Proof. rewrite handle_reports_events. apply skipn_length_app. Qed.

Lemma parse_report_emitted d w :
  emitted_by (ipts_stylus_parse_report d) w =
  Some (events_of_reports (stylus (ipts w)) (stylus_tool (ipts w))
          (wire_reports (is_ntrig w) d)).
Proof.
  unfold emitted_by. rewrite parse_report_spec. simpl.
  rewrite handle_reports_emitted. reflexivity.
Qed.


(** The events on the Pressure axis carry the pressure field of a report. *)
Lemma events_of_reports_pressure dev rs : forall tool p e,
  In (p, e) (events_of_reports dev tool rs) ->
  ev_type e = EV_ABS -> ev_code e = ABS_PRESSURE ->
  exists r, In r rs /\ ev_value e = pressure r.
Proof.
  induction rs as [|r rs IH]; intros tool p e Hin Hty Hcode; simpl in Hin.
  - destruct Hin.
  - apply in_app_or in Hin. destruct Hin as [Hin|Hin].
    + exists r. split; [left; reflexivity|].
      apply in_map_iff in Hin. destruct Hin as (e' & He' & Hin).
      injection He' as _ ->.
      apply in_app_or in Hin. destruct Hin as [Hin|Hin].
      * destruct (tool =? report_tool r); [destruct Hin|].
        destruct Hin as [<-|[<-|[]]]; discriminate Hty.
      * unfold report_group in Hin. cbn [In] in Hin.
        repeat (destruct Hin as [<-|Hin];
                [try discriminate Hty; try discriminate Hcode;
                 try reflexivity|]).
        destruct Hin.
    + destruct (IH _ _ _ Hin Hty Hcode) as (r' & Hr' & Hv).
      exists r'. split; [right; exact Hr'|exact Hv].
Qed.

Lemma wire_reports_pressure_range ntrig d r :
  In r (wire_reports ntrig d) -> 0 <= pressure r <= 65535.
Proof.
  unfold wire_reports. intros Hin.
  apply in_map_iff in Hin. destruct Hin as (i & <- & _).
  destruct ntrig; cbn [pressure ntrig_report wire_report wire_report_ntrig
                       ntrig_pressure];
    match goal with |- context [data_u16 ?d ?o] =>
      pose proof (data_u16_range d o) end; lia.
Qed.

End Decoding.

(** ** Device life cycle *)

Lemma bind_to {A B} (m : M A) (f : A -> M B) w a w' r :
  m w = (a, w') -> f a w' = r -> (m ≫= f) w = r.
Proof. intros Hm Hf. unfold mbind, M_bind. rewrite Hm. exact Hf. Qed.

Lemma get_ipts_run w : get_ipts w = (ipts w, w).
Proof. reflexivity. Qed.

Lemma set_ipts_put c p d w :
  set_ipts c (put_dev p d w) = (tt, put_dev p d (with_ipts c w)).
Proof. reflexivity. Qed.

Lemma allocate_run w :
  input_allocate_device true w = (Some (new_dev w), put_dev (new_dev w) blank_dev w).
Proof. reflexivity. Qed.

Lemma allocate_fails w : input_allocate_device false w = (None, w).
Proof. reflexivity. Qed.

Lemma new_dev_fresh w : devices (input w) !! new_dev w = None.
Proof. unfold new_dev. apply not_elem_of_dom. apply is_fresh. Qed.

Ltac run_core :=
  cbv [mbind M_bind mret M_ret get_input set_input set_devices raise_fault
       is_live ipts input devices registered events klog fault].

Lemma update_dev_put p f d w :
  update_dev (Some p) f (put_dev p d w) = (tt, put_dev p (updated f d) w).
Proof.
  unfold update_dev, put_dev, updated. run_core.
  rewrite lookup_insert_eq.
  rewrite bool_decide_eq_true_2 by (eexists; reflexivity).
  rewrite alter_insert_eq. reflexivity.
Qed.

Lemma register_put ret p d w :
  input_register_device ret (Some p) (put_dev p d w) =
  (ret, if ret =? 0
        then mark_registered p (put_dev p (updated registering d) w)
        else put_dev p d w).
Proof.
  unfold input_register_device, put_dev, updated. run_core.
  rewrite lookup_insert_eq.
  rewrite bool_decide_eq_true_2 by (eexists; reflexivity).
  destruct (ret =? 0); [rewrite alter_insert_eq|]; reflexivity.
Qed.

Lemma get_name_put p d w :
  get_name (Some p) (put_dev p d w) = (name d, put_dev p d w).
Proof.
  unfold get_name, put_dev. run_core.
  rewrite lookup_insert_eq. reflexivity.
Qed.

Lemma dev_err_put fmt nm ret p d w :
  dev_err fmt nm ret (put_dev p d w) = (tt, put_dev p d (log_err fmt nm ret w)).
Proof. reflexivity. Qed.

Lemma free_put p d w :
  devices (input w) !! p = None ->
  input_free_device (Some p) (put_dev p d w) = (tt, w).
Proof.
  intros Hp.
  unfold input_free_device, put_dev. run_core.
  rewrite lookup_insert_eq.
  rewrite bool_decide_eq_true_2 by (eexists; reflexivity).
  rewrite delete_insert_eq.
  rewrite delete_id by exact Hp.
  destruct w as [c [ds rg evs kl ft]]. reflexivity.
Qed.

(** Unregistering through a pointer that is not live raises the fault flag
    and does nothing else. *)
Lemma unregister_stale p w :
  devices (input w) !! p = None ->
  input_unregister_device (Some p) w =
  (tt, {| ipts := ipts w; input := raise_fault (input w) |}).
Proof.
  destruct w as [c [ds rg evs kl ft]]. cbn [input devices].
  intros Hp. unfold input_unregister_device. run_core.
  rewrite Hp.
  rewrite bool_decide_eq_false_2 by (intros [? ?]; discriminate).
  reflexivity.
Qed.

(** One step of a sequence: run the first operation with [lem]. *)
Ltac step lem := eapply bind_to; [ lem | ].

Section LifecycleFacts.
Context {H : ipts_headers}.

(** The run of [ipts_stylus_init] when the device can be allocated: the
    device [d] is configured, then registered (on answer 0) or released (on
    any other answer, after the error is logged). *)
Lemma init_run (reg : Z) (w : world) :
  exists d,
    ipts_stylus_init true reg w =
    (reg,
     if reg =? 0
     then mark_registered (new_dev w)
            (put_dev (new_dev w) d (with_ipts (init_context w) w))
     else log_err register_error_format
            "Intel Precise Stylus" reg (with_ipts (init_context w) w)) /\
    absinfo d !! ABS_PRESSURE =
      Some {| minimum := 0; maximum := pressure_max w; fuzz := 0; flat := 0;
              resolution := 0 |} /\
    name d = "Intel Precise Stylus"%string.
Proof.
  eexists. split.
  - unfold ipts_stylus_init.
    step ltac:(apply allocate_run).
    unfold set_stylus.
    eapply bind_to.
    { eapply bind_to; [apply get_ipts_run | apply set_ipts_put]. }
    step ltac:(apply get_ipts_run).
    cbn [stylus ipts put_dev with_ipts].
    unfold set_stylus_tool.
    eapply bind_to.
    { eapply bind_to; [apply get_ipts_run | apply set_ipts_put]. }
    step ltac:(apply get_ipts_run).
    cbn [stylus stylus_tool quirks device_info ipts put_dev with_ipts].
    do 18 (step ltac:(apply update_dev_put)).
    step ltac:(apply register_put).
    destruct (Z.eqb_spec reg 0) as [Hreg|Hreg].
    + assert (Ht : truthy reg = false) by (apply truthy_false; exact Hreg).
      rewrite Ht. unfold mret, M_ret.
      f_equal. symmetry. exact Hreg.
    + assert (Ht : truthy reg = true) by (apply truthy_true; exact Hreg).
      rewrite Ht.
      step ltac:(apply get_name_put).
      step ltac:(apply dev_err_put).
      step ltac:(apply free_put).
      { cbn [log_err with_ipts input devices]. apply new_dev_fresh. }
      reflexivity.
  - unfold pressure_max, is_ntrig.
    destruct (truthy _); split; vm_compute; reflexivity.
Qed.

(** Without memory for the device, [ipts_stylus_init] returns [-ENOMEM] and
    leaves a null device pointer. *)
Lemma init_no_memory (reg : Z) (w : world) :
  ipts_stylus_init false reg w =
  (- ENOMEM,
   with_ipts {| stylus := None; stylus_tool := stylus_tool (ipts w);
                quirks := quirks (ipts w);
                device_info := device_info (ipts w) |} w).
Proof. reflexivity. Qed.

(** With a null device pointer [ipts_stylus_free] returns at once. *)
Lemma free_null (w : world) :
  stylus (ipts w) = None -> ipts_stylus_free w = (tt, w).
Proof.
  intros Hnull. unfold ipts_stylus_free.
  step ltac:(apply get_ipts_run).
  rewrite Hnull. reflexivity.
Qed.

(** After an allocation failure the pointer is null, and teardown leaves
    the world as it is. *)
Lemma teardown_after_allocation_failure (reg : Z) (w : world) :
  ipts_stylus_free (exec (ipts_stylus_init false reg) w) =
  (tt, exec (ipts_stylus_init false reg) w).
Proof.
  apply free_null. unfold exec. rewrite init_no_memory. reflexivity.
Qed.

End LifecycleFacts.

(** ** The records of a buffer and their events *)

Lemma axis_values_app code l l' :
  axis_values code (l ++ l') = axis_values code l ++ axis_values code l'.
Proof.
  induction l as [|pe l IH]; simpl; [reflexivity|].
  destruct (is_axis_event code pe); rewrite IH; reflexivity.
Qed.

Lemma axis_values_in code l : forall p e,
  In (p, e) l -> ev_type e = EV_ABS -> ev_code e = code ->
  In (ev_value e) (axis_values code l).
Proof.
  induction l as [|pe l IH]; intros p e Hin Hty Hcode; [destruct Hin|].
  simpl. destruct Hin as [->|Hin].
  - unfold is_axis_event. cbn [snd].
    rewrite Hty, Hcode, !Z.eqb_refl. left. reflexivity.
  - destruct (is_axis_event code pe); [right|]; eapply IH; eassumption.
Qed.

Section LayoutFacts.
Context {H : ipts_headers}.

(** The decoder's reports are the records of the buffer, read where the
    layout puts them. *)
Lemma wire_reports_record_at ntrig d i :
  0 <= i < byte_value (data d 32) ->
  exists r,
    nth_error (wire_reports ntrig d) (Z.to_nat i) = Some r /\
    record_at ntrig d i r.
Proof.
  intros Hi.
  exists (if ntrig then ntrig_report d i else wire_report d i).
  split; [apply wire_reports_nth; exact Hi|].
  destruct ntrig; repeat split.
Qed.


(** The values on the Pressure axis are the pressure fields of the
    reports, one per report and in their order; the same holds for the X
    axis. *)
Lemma events_of_reports_pressures dev rs : forall tool,
  axis_values ABS_PRESSURE (events_of_reports dev tool rs) = map pressure rs.
Proof.
  induction rs as [|r rs IH]; intros tool; [reflexivity|].
  cbn [events_of_reports map]. rewrite axis_values_app, IH.
  destruct (tool =? report_tool r); reflexivity.
Qed.

Lemma events_of_reports_xs dev rs : forall tool,
  axis_values ABS_X (events_of_reports dev tool rs) = map x rs.
Proof.
  induction rs as [|r rs IH]; intros tool; [reflexivity|].
  cbn [events_of_reports map]. rewrite axis_values_app, IH.
  destruct (tool =? report_tool r); reflexivity.
Qed.

End LayoutFacts.

(** ** Claims on decoding *)

Section DecodingClaims.
Context {H : ipts_headers}.

(** C6 (as the code has it): with the NTRIG quirk set, decoding takes the
    report count from offset 32 and the records from offset 44, and hands
    on, for each record in turn, a report with the record's mode, x, y and
    pressure, altitude 0, azimuth 0 and, as timestamp, the buffer id cut to
    16 bits (the id itself when it is below 65536). *)
Theorem legacy_reports_are_synthesized (d : ipts_touch_data) (w : world) :
  is_ntrig w = true ->
  ipts_stylus_parse_report d w =
    Some (handle_reports (map (ntrig_report d) (indices (data_u8 d 32))) w) /\
  forall i,
    altitude (ntrig_report d i) = 0 /\
    azimuth (ntrig_report d i) = 0 /\
    timestamp (ntrig_report d i) = u16 (buffer d) /\
    (0 <= buffer d < 65536 -> timestamp (ntrig_report d i) = buffer d) /\
    mode (ntrig_report d i) =
      data_u8 d (44 + i * sizeof_report_ntrig + off_ntrig_mode) /\
    x (ntrig_report d i) =
      data_u16 d (44 + i * sizeof_report_ntrig + off_ntrig_x) /\
    y (ntrig_report d i) =
      data_u16 d (44 + i * sizeof_report_ntrig + off_ntrig_y) /\
    pressure (ntrig_report d i) =
      data_u16 d (44 + i * sizeof_report_ntrig + off_ntrig_pressure) /\
    legacy_record_at d i (ntrig_report d i).
Proof.
  intros Hq. split.
  - rewrite parse_report_spec, Hq. reflexivity.
  - intros i. repeat split.
    intros Hb. cbn [timestamp ntrig_report]. apply u16_small. exact Hb.
Qed.

(** C7: in either wire format, decoding handles exactly [count] reports,
    where [count] is the byte at offset 32: report [i] is record [i] of the
    buffer, read at offset [40 + i * sizeof] (current format) or
    [44 + i * sizeof] (legacy format), and the reports are handled in the
    order of the records, as the values on the X axis show; for
    [count = 0] nothing is handled: no event is emitted and the world is
    unchanged. *)
Theorem decode_handles_count_reports (d : ipts_touch_data) (w : world) :
  ipts_stylus_parse_report d w =
    Some (handle_reports (wire_reports (is_ntrig w) d) w) /\
  emitted_by (ipts_stylus_parse_report d) w =
    Some (events_of_reports (stylus (ipts w)) (stylus_tool (ipts w))
            (wire_reports (is_ntrig w) d)) /\
  Z.of_nat (length (wire_reports (is_ntrig w) d)) = byte_value (data d 32) /\
  (forall i, 0 <= i < byte_value (data d 32) ->
     exists r,
       nth_error (wire_reports (is_ntrig w) d) (Z.to_nat i) = Some r /\
       record_at (is_ntrig w) d i r) /\
  (forall es,
     emitted_by (ipts_stylus_parse_report d) w = Some es ->
     axis_values ABS_X es =
     map (fun i =>
            if is_ntrig w
            then le16_at d (44 + i * sizeof_report_ntrig + off_ntrig_x)
            else le16_at d (40 + i * sizeof_report + off_x))
       (map Z.of_nat (seq 0 (Z.to_nat (byte_value (data d 32)))))) /\
  (byte_value (data d 32) = 0 ->
     ipts_stylus_parse_report d w = Some w /\
     emitted_by (ipts_stylus_parse_report d) w = Some []).
Proof.
  split; [apply parse_report_spec|].
  split; [apply parse_report_emitted|].
  split; [apply wire_reports_length|].
  split; [intros i Hi; apply wire_reports_record_at; exact Hi|].
  split.
  - intros es Hes. rewrite parse_report_emitted in Hes. injection Hes as <-.
    rewrite events_of_reports_xs. unfold wire_reports, indices.
    rewrite map_map. apply map_ext. intros i.
    destruct (is_ntrig w); reflexivity.
  - intros Hzero.
    rewrite parse_report_emitted, parse_report_spec.
    unfold wire_reports.
    change (data_u8 d 32) with (byte_value (data d 32)).
    rewrite Hzero. split; reflexivity.
Qed.


(** C8 (as the code has it): the values sent on the Pressure axis are the
    16-bit pressure fields of the records of the buffer, one per record, in
    the order of the records and as they stand on the wire, so each lies
    between 0 and 65535; the maximum of the wire format (1024 for legacy,
    4096 for current sessions) is the upper end of the range that
    initialisation declares for the Pressure axis of the device. *)
Theorem pressure_is_passed_through (d : ipts_touch_data) (w : world)
    (es : list (input_dev_ptr * input_event)) :
  emitted_by (ipts_stylus_parse_report d) w = Some es ->
  axis_values ABS_PRESSURE es =
    map (fun i =>
           if is_ntrig w
           then le16_at d (44 + i * sizeof_report_ntrig + off_ntrig_pressure)
           else le16_at d (40 + i * sizeof_report + off_pressure))
      (map Z.of_nat (seq 0 (Z.to_nat (byte_value (data d 32))))) /\
  (forall p v,
     In (p, SetAxis Pressure v) es ->
     In v (axis_values ABS_PRESSURE es) /\ 0 <= v <= 65535) /\
  (exists dv,
     devices (input (exec (ipts_stylus_init true 0) w)) !! new_dev w = Some dv /\
     stylus (ipts (exec (ipts_stylus_init true 0) w)) = Some (new_dev w) /\
     absinfo dv !! ABS_PRESSURE =
       Some {| minimum := 0; maximum := pressure_max w; fuzz := 0; flat := 0;
               resolution := 0 |}).
Proof.
  intros Hes. rewrite parse_report_emitted in Hes. injection Hes as <-.
  split; [|split].
  - rewrite events_of_reports_pressures. unfold wire_reports, indices.
    rewrite map_map. apply map_ext. intros i.
    destruct (is_ntrig w); reflexivity.
  - intros p v Hin. split.
    + exact (axis_values_in ABS_PRESSURE _ _ _ Hin eq_refl eq_refl).
    + destruct (events_of_reports_pressure _ _ _ _ _ Hin eq_refl eq_refl)
        as (r & Hr & Hv).
      cbn [ev_value SetAxis] in Hv. subst v.
      apply (wire_reports_pressure_range _ _ _ Hr).
  - destruct (init_run 0 w) as (dv & Hrun & Habs & _).
    exists dv. unfold exec. rewrite Hrun.
    cbn [snd Z.eqb mark_registered put_dev with_ipts init_context
         ipts input devices set_devices stylus].
    split; [apply lookup_insert_eq|].
    split; [reflexivity|exact Habs].
Qed.

End DecodingClaims.

(** ** Claims on the device life cycle *)

Section LifecycleClaims.
Context {H : ipts_headers}.

(** C9: when the input core refuses the registration, [ipts_stylus_init]
    returns the core's error after releasing the device it had allocated,
    so that the core holds the same devices and registrations as before;
    when the registration succeeds it returns 0, the device is registered
    and the active tool is the pen. *)
Theorem registration_failure_releases_device (reg : Z) (w : world) :
  (reg <> 0 ->
     result (ipts_stylus_init true reg) w = reg /\
     devices (input (exec (ipts_stylus_init true reg) w)) = devices (input w) /\
     registered (input (exec (ipts_stylus_init true reg) w)) =
       registered (input w) /\
     fault (input (exec (ipts_stylus_init true reg) w)) = fault (input w) /\
     klog (input (exec (ipts_stylus_init true reg) w)) =
       klog (input w) ++
       [(register_error_format, "Intel Precise Stylus"%string, reg)]) /\
  (reg = 0 ->
     result (ipts_stylus_init true reg) w = 0 /\
     stylus_tool (ipts (exec (ipts_stylus_init true reg) w)) = tool_code Pen /\
     stylus (ipts (exec (ipts_stylus_init true reg) w)) = Some (new_dev w) /\
     new_dev w ∈ registered (input (exec (ipts_stylus_init true reg) w)) /\
     is_live (input (exec (ipts_stylus_init true reg) w)) (Some (new_dev w))
       = true).
Proof.
  destruct (init_run reg w) as (dv & Hrun & _).
  unfold result, exec. rewrite Hrun. cbn [fst snd].
  split.
  - intros Hreg. apply Z.eqb_neq in Hreg. rewrite Hreg.
    repeat split.
  - intros ->. cbn [Z.eqb].
    cbn [mark_registered put_dev with_ipts init_context
         ipts input devices registered set_devices stylus stylus_tool is_live].
    repeat split.
    + apply elem_of_union_l. apply elem_of_singleton. reflexivity.
    + rewrite lookup_insert_eq.
      apply bool_decide_eq_true_2. eexists. reflexivity.
Qed.

(** C10, at the failing input: after a registration failure the device
    pointer of the context is not null but points to the released device,
    so [ipts_stylus_free] does not return early: it hands the stale pointer
    to [input_unregister_device]. *)
Theorem teardown_after_failed_registration (reg : Z) (w : world) :
  reg <> 0 ->
  stylus (ipts (exec (ipts_stylus_init true reg) w)) = Some (new_dev w) /\
  is_live (input (exec (ipts_stylus_init true reg) w)) (Some (new_dev w))
    = false /\
  ipts_stylus_free (exec (ipts_stylus_init true reg) w) =
    input_unregister_device (Some (new_dev w))
      (exec (ipts_stylus_init true reg) w) /\
  fault (input (exec ipts_stylus_free (exec (ipts_stylus_init true reg) w)))
    = true.
Proof.
  intros Hreg.
  destruct (init_run reg w) as (dv & Hrun & _).
  unfold exec at 1 2 3 4 6. rewrite Hrun. cbn [snd].
  apply Z.eqb_neq in Hreg. rewrite Hreg.
  assert (Hfresh : devices (input
            (log_err register_error_format
               "Intel Precise Stylus" reg (with_ipts (init_context w) w)))
          !! new_dev w = None).
  { cbn [log_err with_ipts input devices]. apply new_dev_fresh. }
  split; [reflexivity|].
  split.
  { unfold is_live. rewrite Hfresh.
    apply bool_decide_eq_false_2. intros [? ?]; discriminate. }
  split; [reflexivity|].
  unfold exec, ipts_stylus_free.
  erewrite bind_to; [|apply get_ipts_run|reflexivity].
  cbn [stylus ipts log_err with_ipts init_context].
  rewrite unregister_stale by exact Hfresh.
  reflexivity.
Qed.

End LifecycleClaims.

(** ** The claims at concrete inputs *)

Lemma sample_flags_independent : @independent_mode_flags sample_headers.
Proof.
  unfold independent_mode_flags, byte_mask. cbn.
  repeat split; reflexivity.
Defined.

Lemma pen_touch_report_events_witness :
  @independent_mode_flags sample_headers /\
  stylus_tool (ipts (session 0)) = tool_code Pen /\
  emitted (@ipts_stylus_handle_report sample_headers
             (@pen_touch_report sample_headers 42)) (session 0) =
  map (pair (stylus (ipts (session 0))))
    [ SetTouch true; SetActive Pen true; SetButton false;
      SetAxis X 100; SetAxis Y 200; SetAxis Pressure 50; SetAxis Misc 42;
      SetAxis TiltX 0; SetAxis TiltY 0; Flush ].
Proof.
  split; [exact sample_flags_independent|].
  split; [vm_compute; reflexivity|].
  apply (@pen_touch_report_events sample_headers (session 0) 42).
  - exact sample_flags_independent.
  - vm_compute. reflexivity.
Defined.

Lemma tool_switch_comes_first_witness :
  (stylus_tool (ipts (session 0)) <> @report_tool sample_headers eraser_report /\
   emitted (@ipts_stylus_handle_report sample_headers eraser_report)
     (session 0) =
   map (pair (Some 1%positive))
     [ SetActive Pen false; Flush;
       SetTouch false; SetActive Eraser true; SetButton false;
       SetAxis X 10; SetAxis Y 20; SetAxis Pressure 0; SetAxis Misc 5;
       SetAxis TiltX 0; SetAxis TiltY 0; Flush ]) /\
  (stylus_tool (ipts (session 0)) =
     @report_tool sample_headers (@pen_touch_report sample_headers 42) /\
   ipts (exec (@ipts_stylus_handle_report sample_headers
                 (@pen_touch_report sample_headers 42)) (session 0)) =
   ipts (session 0)).
Proof.
  assert (Hne : stylus_tool (ipts (session 0)) <>
                @report_tool sample_headers eraser_report)
    by (vm_compute; discriminate).
  assert (Heq : stylus_tool (ipts (session 0)) =
                @report_tool sample_headers (@pen_touch_report sample_headers 42))
    by (vm_compute; reflexivity).
  split.
  - split; [exact Hne|].
    exact (proj1 (proj1 (@tool_switch_comes_first sample_headers
                           eraser_report (session 0)) Hne)).
  - split; [exact Heq|].
    exact (proj2 (proj2 (@tool_switch_comes_first sample_headers
                           (@pen_touch_report sample_headers 42) (session 0))
                    Heq)).
Defined.

Lemma zero_altitude_zero_tilt_witness :
  altitude eraser_report = 0 /\
  azimuth eraser_report = 7 /\
  @report_tilt sample_headers eraser_report = (0, 0).
Proof.
  split; [reflexivity|]. split; [reflexivity|].
  exact (proj1 (@zero_altitude_zero_tilt sample_headers eraser_report
                  (session 0) eq_refl)).
Defined.

Lemma eraser_iff_proximity_and_rubber_witness :
  (@mode_proximity sample_headers eraser_report = true /\
   @mode_rubber sample_headers eraser_report = true) /\
  @report_tool sample_headers eraser_report = tool_code Eraser.
Proof.
  assert (Hflags : @mode_proximity sample_headers eraser_report = true /\
                   @mode_rubber sample_headers eraser_report = true)
    by (split; vm_compute; reflexivity).
  split; [exact Hflags|].
  exact (proj2 (proj1 (@eraser_iff_proximity_and_rubber sample_headers
                         eraser_report)) Hflags).
Defined.

Lemma legacy_reports_are_synthesized_witness :
  @is_ntrig sample_headers (session 1) = true /\
  @ipts_stylus_parse_report sample_headers two_records_ntrig (session 1) =
    Some (@handle_reports sample_headers
            (map (@ntrig_report sample_headers two_records_ntrig)
               (indices (data_u8 two_records_ntrig 32))) (session 1)) /\
  timestamp (@ntrig_report sample_headers two_records_ntrig 1) = 7.
Proof.
  assert (Hq : @is_ntrig sample_headers (session 1) = true)
    by (vm_compute; reflexivity).
  split; [exact Hq|].
  split.
  - exact (proj1 (@legacy_reports_are_synthesized sample_headers
                    two_records_ntrig (session 1) Hq)).
  - refine (proj1 (proj2 (proj2 (proj2
              (proj2 (@legacy_reports_are_synthesized sample_headers
                        two_records_ntrig (session 1) Hq) 1)))) _).
    cbn. lia.
Defined.

(** C6 fails on the code for a buffer id that does not fit 16 bits: the
    legacy buffer [wide_id_buffer] has the id 65543, and the timestamp of
    its report, sent on the Misc axis, is 7. *)
Lemma legacy_timestamp_is_truncated :
  @is_ntrig sample_headers (session 1) = true /\
  buffer wide_id_buffer = 65543 /\
  timestamp (@ntrig_report sample_headers wide_id_buffer 0) = 7 /\
  emitted_by (@ipts_stylus_parse_report sample_headers wide_id_buffer)
    (session 1) =
  Some (map (pair (Some 1%positive))
          [ SetTouch false; SetActive Pen false; SetButton false;
            SetAxis X 0; SetAxis Y 0; SetAxis Pressure 0; SetAxis Misc 7;
            SetAxis TiltX 0; SetAxis TiltY 0; Flush ]) /\
  7 <> 65543.
Proof.
  split; [vm_compute; reflexivity|].
  split; [reflexivity|].
  split; [vm_compute; reflexivity|].
  split; [vm_compute; reflexivity|discriminate].
Qed.

Lemma decode_handles_count_reports_witness :
  (0 <= 1 < byte_value (data two_records 32) /\
   exists r,
     nth_error (@wire_reports sample_headers
                  (@is_ntrig sample_headers (session 0)) two_records)
       (Z.to_nat 1) = Some r /\
     @record_at sample_headers (@is_ntrig sample_headers (session 0))
       two_records 1 r) /\
  (emitted_by (@ipts_stylus_parse_report sample_headers two_records)
     (session 0) = Some (decoded_events two_records (session 0)) /\
   axis_values ABS_X (decoded_events two_records (session 0)) = [100; 30]) /\
  (byte_value (data empty_buffer 32) = 0 /\
   @ipts_stylus_parse_report sample_headers empty_buffer (session 0) =
     Some (session 0) /\
   emitted_by (@ipts_stylus_parse_report sample_headers empty_buffer)
     (session 0) = Some []).
Proof.
  assert (Hi : 0 <= 1 < byte_value (data two_records 32))
    by (vm_compute; split; [discriminate|reflexivity]).
  assert (Hes : emitted_by
                  (@ipts_stylus_parse_report sample_headers two_records)
                  (session 0) = Some (decoded_events two_records (session 0)))
    by (vm_compute; reflexivity).
  split; [|split].
  - split; [exact Hi|].
    exact (proj1 (proj2 (proj2 (proj2
             (@decode_handles_count_reports sample_headers two_records
                (session 0))))) 1 Hi).
  - split; [exact Hes|].
    refine (eq_trans
              (proj1 (proj2 (proj2 (proj2 (proj2
                 (@decode_handles_count_reports sample_headers two_records
                    (session 0)))))) _ Hes) _).
    vm_compute. reflexivity.
  - split; [reflexivity|].
    exact (proj2 (proj2 (proj2 (proj2 (proj2
             (@decode_handles_count_reports sample_headers empty_buffer
                (session 0)))))) eq_refl).
Defined.


(** C8 fails on the code: a current-format record with pressure 5000 and a
    legacy record with pressure 2000 are sent on the Pressure axis as they
    are, above the maxima 4096 and 1024 of their sessions. *)
Lemma pressure_exceeds_declared_maximum :
  (@pressure_max sample_headers (session 0) = 4096 /\
   emitted_by (@ipts_stylus_parse_report sample_headers heavy_buffer)
     (session 0) =
   Some (map (pair (Some 1%positive))
           [ SetTouch false; SetActive Pen false; SetButton false;
             SetAxis X 0; SetAxis Y 0; SetAxis Pressure 5000; SetAxis Misc 0;
             SetAxis TiltX 0; SetAxis TiltY 0; Flush ]) /\
   4096 < 5000) /\
  (@pressure_max sample_headers (session 1) = 1024 /\
   emitted_by (@ipts_stylus_parse_report sample_headers heavy_buffer_ntrig)
     (session 1) =
   Some (map (pair (Some 1%positive))
           [ SetTouch false; SetActive Pen false; SetButton false;
             SetAxis X 0; SetAxis Y 0; SetAxis Pressure 2000; SetAxis Misc 7;
             SetAxis TiltX 0; SetAxis TiltY 0; Flush ]) /\
   1024 < 2000).
Proof.
  repeat split; vm_compute; reflexivity.
Qed.

Lemma pressure_is_passed_through_witness :
  emitted_by (@ipts_stylus_parse_report sample_headers two_records)
    (session 0) = Some (decoded_events two_records (session 0)) /\
  axis_values ABS_PRESSURE (decoded_events two_records (session 0)) =
    [50; 70].
Proof.
  assert (Hes : emitted_by
                  (@ipts_stylus_parse_report sample_headers two_records)
                  (session 0) = Some (decoded_events two_records (session 0)))
    by (vm_compute; reflexivity).
  split; [exact Hes|].
  refine (eq_trans
            (proj1 (@pressure_is_passed_through sample_headers two_records
                      (session 0) _ Hes)) _).
  vm_compute. reflexivity.
Defined.

Lemma registration_failure_releases_device_witness :
  (-5 <> 0 /\
   result (@ipts_stylus_init sample_headers true (-5)) (boot 0) = -5 /\
   devices (input (exec (@ipts_stylus_init sample_headers true (-5)) (boot 0)))
     = devices (input (boot 0))) /\
  result (@ipts_stylus_init sample_headers true 0) (boot 0) = 0.
Proof.
  assert (Hne : -5 <> 0) by discriminate.
  pose proof (proj1 (@registration_failure_releases_device sample_headers
                       (-5) (boot 0)) Hne) as (Hres & Hdev & _).
  pose proof (proj2 (@registration_failure_releases_device sample_headers
                       0 (boot 0)) eq_refl) as (Hok & _).
  split; [split; [exact Hne|split; [exact Hres|exact Hdev]]|exact Hok].
Defined.

Lemma teardown_after_failed_registration_witness :
  -5 <> 0 /\
  fault (input (exec (@ipts_stylus_free)
                  (exec (@ipts_stylus_init sample_headers true (-5)) (boot 0))))
    = true.
Proof.
  assert (Hne : -5 <> 0) by discriminate.
  split; [exact Hne|].
  exact (proj2 (proj2 (proj2 (@teardown_after_failed_registration
                                sample_headers (-5) (boot 0) Hne)))).
Defined.

(** ** Further properties of decoding *)

Lemma last_cons {A} (l : list A) (a d : A) :
  List.last (a :: l) d = List.last l a.
Proof.
  revert a d. induction l as [|b l IH]; intros a d; [reflexivity|].
  change (List.last (a :: b :: l) d) with (List.last (b :: l) d).
  rewrite (IH b d), (IH b a). reflexivity.
Qed.

Section StreamFacts.
Context {H : ipts_headers}.

Lemma report_tool_pen_or_rubber r :
  report_tool r = BTN_TOOL_PEN \/ report_tool r = BTN_TOOL_RUBBER.
Proof.
  rewrite report_tool_cases.
  destruct (mode_proximity r && mode_rubber r); [right|left]; reflexivity.
Qed.

(** What a list of reports leaves untouched. *)
Lemma handle_reports_frame rs : forall w,
  stylus (ipts (handle_reports rs w)) = stylus (ipts w) /\
  quirks (ipts (handle_reports rs w)) = quirks (ipts w) /\
  device_info (ipts (handle_reports rs w)) = device_info (ipts w) /\
  devices (input (handle_reports rs w)) = devices (input w) /\
  registered (input (handle_reports rs w)) = registered (input w) /\
  klog (input (handle_reports rs w)) = klog (input w).
Proof.
  induction rs as [|r rs IH]; intros w; [repeat split|].
  change (handle_reports (r :: rs) w)
    with (handle_reports rs (exec (ipts_stylus_handle_report r) w)).
  destruct (IH (exec (ipts_stylus_handle_report r) w))
    as (-> & -> & -> & -> & -> & ->).
  rewrite handle_report_exec. repeat split.
Qed.

Lemma handle_reports_tool rs : forall w,
  stylus_tool (ipts (handle_reports rs w)) =
  List.last (map report_tool rs) (stylus_tool (ipts w)).
Proof.
  induction rs as [|r rs IH]; intros w; [reflexivity|].
  change (handle_reports (r :: rs) w)
    with (handle_reports rs (exec (ipts_stylus_handle_report r) w)).
  rewrite IH, handle_report_exec.
  cbn [map]. rewrite last_cons. reflexivity.
Qed.

Lemma handle_reports_app rs rs' w :
  handle_reports (rs ++ rs') w = handle_reports rs' (handle_reports rs w).
Proof. apply fold_left_app. Qed.

Lemma handle_reports_is_ntrig rs w :
  is_ntrig (handle_reports rs w) = is_ntrig w.
Proof.
  unfold is_ntrig.
  destruct (handle_reports_frame rs w) as (_ & -> & _). reflexivity.
Qed.

(** Where an event of the stream comes from: it is sent to [dev] and is a
    deactivation, a flush, or an event of the group of one of the reports. *)
Lemma events_of_reports_in dev rs : forall tool p e,
  In (p, e) (events_of_reports dev tool rs) ->
  p = dev /\
  ((exists old, e = key_event old false) \/
   e = Flush \/
   exists r, In r rs /\
     In e (report_group (report_tool r) r
             (fst (report_tilt r)) (snd (report_tilt r)))).
Proof.
  induction rs as [|r rs IH]; intros tool p e Hin; simpl in Hin.
  - destruct Hin.
  - apply in_app_or in Hin. destruct Hin as [Hin|Hin].
    + apply in_map_iff in Hin. destruct Hin as (e' & He' & Hin).
      injection He' as <- ->. split; [reflexivity|].
      apply in_app_or in Hin. destruct Hin as [Hin|Hin].
      * destruct (tool =? report_tool r); [destruct Hin|].
        destruct Hin as [<-|[<-|[]]].
        -- left. eexists. reflexivity.
        -- right. left. reflexivity.
      * right. right. exists r. split; [left; reflexivity|exact Hin].
    + destruct (IH _ _ _ Hin) as (Hp & Hcases).
      split; [exact Hp|].
      destruct Hcases as [Hk|[Hf|(r' & Hr' & He)]].
      * left. exact Hk.
      * right. left. exact Hf.
      * right. right. exists r'. split; [right; exact Hr'|exact He].
Qed.

Lemma events_of_reports_length dev rs : forall tool,
  (10 * length rs <= length (events_of_reports dev tool rs) <= 12 * length rs)%nat.
Proof.
  induction rs as [|r rs IH]; intros tool; simpl events_of_reports.
  - simpl. lia.
  - rewrite length_app, length_map, length_app.
    specialize (IH (report_tool r)).
    destruct (tool =? report_tool r); simpl length in *; lia.
Qed.

Lemma events_of_reports_last dev rs : forall tool,
  rs <> [] ->
  exists pre, events_of_reports dev tool rs = pre ++ [(dev, Flush)].
Proof.
  induction rs as [|r rs IH]; intros tool Hne; [congruence|].
  simpl events_of_reports.
  destruct rs as [|r' rs].
  - simpl events_of_reports. rewrite app_nil_r.
    rewrite map_app.
    exists (map (pair dev)
              (if tool =? report_tool r then [] else switch_pair tool) ++
            map (pair dev)
              (removelast (report_group (report_tool r) r
                             (fst (report_tilt r)) (snd (report_tilt r))))).
    rewrite <- app_assoc. reflexivity.
  - destruct (IH (report_tool r)) as (pre & Hpre); [discriminate|].
    rewrite Hpre. eexists. rewrite app_assoc. reflexivity.
Qed.

End StreamFacts.

Lemma last_keeps {A} (P : A -> Prop) (l : list A) : forall d,
  (l <> [] \/ P d) -> (forall a, In a l -> P a) -> P (List.last l d).
Proof.
  induction l as [|a l IH]; intros d Hd Hall.
  - destruct Hd as [Hd|Hd]; [congruence|exact Hd].
  - rewrite last_cons. apply IH.
    + right. apply Hall. left. reflexivity.
    + intros b Hb. apply Hall. right. exact Hb.
Qed.

Section StreamClaims.
Context {H : ipts_headers}.

Lemma handle_reports_fault rs : forall w,
  fault (input (handle_reports rs w)) =
  fault (input w) ||
  (negb (is_live (input w) (stylus (ipts w))) &&
   match rs with [] => false | _ => true end).
Proof.
  induction rs as [|r rs IH]; intros w.
  - simpl. rewrite andb_false_r, orb_false_r. reflexivity.
  - change (handle_reports (r :: rs) w)
      with (handle_reports rs (exec (ipts_stylus_handle_report r) w)).
    rewrite IH, handle_report_exec.
    unfold after_report, is_live. cbn [ipts input stylus devices fault].
    destruct (fault (input w)), (stylus (ipts w)) as [p|];
      try destruct (bool_decide _); destruct rs; reflexivity.
Qed.

Lemma wire_reports_ranges ntrig d r :
  In r (wire_reports ntrig d) ->
  0 <= x r <= 65535 /\ 0 <= y r <= 65535 /\ 0 <= timestamp r <= 65535.
Proof.
  unfold wire_reports. intros Hin.
  apply in_map_iff in Hin. destruct Hin as (i & <- & _).
  destruct ntrig;
    cbn [x y timestamp ntrig_report wire_report wire_report_ntrig
         ntrig_x ntrig_y].
  - pose proof (data_u16_range d (44 + i * sizeof_report_ntrig + off_ntrig_x)).
    pose proof (data_u16_range d (44 + i * sizeof_report_ntrig + off_ntrig_y)).
    assert (0 <= u16 (buffer d) < 65536)
      by (unfold u16; apply Z.mod_pos_bound; lia).
    lia.
  - pose proof (data_u16_range d (40 + i * sizeof_report + off_x)).
    pose proof (data_u16_range d (40 + i * sizeof_report + off_y)).
    pose proof (data_u16_range d (40 + i * sizeof_report + off_timestamp)).
    lia.
Qed.

Lemma wire_reports_nonempty ntrig d :
  data_u8 d 32 <> 0 -> wire_reports ntrig d <> [].
Proof.
  intros Hc Hnil.
  pose proof (wire_reports_length ntrig d) as Hlen.
  rewrite Hnil in Hlen. simpl in Hlen. lia.
Qed.

(** X1: decoding a buffer touches nothing but the active tool, the event
    queue and the fault flag: the device pointer, the quirks, the device
    information, the live devices, the registrations and the kernel log are
    as before. *)
Theorem decode_frame (d : ipts_touch_data) (w w' : world) :
  ipts_stylus_parse_report d w = Some w' ->
  stylus (ipts w') = stylus (ipts w) /\
  quirks (ipts w') = quirks (ipts w) /\
  device_info (ipts w') = device_info (ipts w) /\
  devices (input w') = devices (input w) /\
  registered (input w') = registered (input w) /\
  klog (input w') = klog (input w).
Proof.
  rewrite parse_report_spec. intros Hw. injection Hw as <-.
  apply handle_reports_frame.
Qed.

(** X2: after decoding, the active tool is the tool of the last record of
    the buffer (the tool of before for an empty buffer); it is the pen or
    the rubber as soon as the buffer has a record or the tool was one of
    the two before. *)
Theorem decode_leaves_last_tool (d : ipts_touch_data) (w w' : world) :
  ipts_stylus_parse_report d w = Some w' ->
  stylus_tool (ipts w') =
    List.last (map report_tool (wire_reports (is_ntrig w) d))
      (stylus_tool (ipts w)) /\
  (data_u8 d 32 <> 0 \/
   stylus_tool (ipts w) = BTN_TOOL_PEN \/
   stylus_tool (ipts w) = BTN_TOOL_RUBBER ->
   stylus_tool (ipts w') = BTN_TOOL_PEN \/
   stylus_tool (ipts w') = BTN_TOOL_RUBBER).
Proof.
  rewrite parse_report_spec. intros Hw. injection Hw as <-.
  rewrite handle_reports_tool. split; [reflexivity|].
  intros Hstart.
  apply (last_keeps (fun t => t = BTN_TOOL_PEN \/ t = BTN_TOOL_RUBBER)).
  - destruct Hstart as [Hc|Ht]; [left|right; exact Ht].
    intros Hnil. apply map_eq_nil in Hnil.
    exact (wire_reports_nonempty _ _ Hc Hnil).
  - intros t Ht. apply in_map_iff in Ht. destruct Ht as (r & <- & _).
    apply report_tool_pen_or_rubber.
Qed.

(** X4: the events of a buffer all go to the session's device, there are
    between ten and twelve of them per record, and the last one is a flush
    whenever the buffer has a record. *)
Theorem decoded_stream_shape (d : ipts_touch_data) (w : world)
    (es : list (input_dev_ptr * input_event)) :
  emitted_by (ipts_stylus_parse_report d) w = Some es ->
  (forall p e, In (p, e) es -> p = stylus (ipts w)) /\
  (10 * Z.to_nat (data_u8 d 32) <= length es <= 12 * Z.to_nat (data_u8 d 32))%nat /\
  (data_u8 d 32 <> 0 -> exists pre, es = pre ++ [(stylus (ipts w), Flush)]).
Proof.
  rewrite parse_report_emitted. intros Hes. injection Hes as <-.
  split; [|split].
  - intros p e Hin. apply (events_of_reports_in _ _ _ _ _ Hin).
  - pose proof (events_of_reports_length (stylus (ipts w))
                  (wire_reports (is_ntrig w) d) (stylus_tool (ipts w))).
    pose proof (wire_reports_length (is_ntrig w) d).
    replace (Z.to_nat (data_u8 d 32))
      with (length (wire_reports (is_ntrig w) d)) by lia.
    assumption.
  - intros Hc. apply events_of_reports_last.
    apply wire_reports_nonempty. exact Hc.
Qed.

(** X6: every event of a buffer is a key event with value 0 or 1, an axis
    event, or a flush; on the X, Y and Misc axes the value is a 16-bit
    quantity. *)
Theorem decoded_events_are_well_formed (d : ipts_touch_data) (w : world)
    (es : list (input_dev_ptr * input_event)) :
  emitted_by (ipts_stylus_parse_report d) w = Some es ->
  forall p e, In (p, e) es ->
    (ev_type e = EV_KEY /\ (ev_value e = 0 \/ ev_value e = 1)) \/
    (ev_type e = EV_ABS /\
     (ev_code e = ABS_X \/ ev_code e = ABS_Y \/ ev_code e = ABS_MISC ->
      0 <= ev_value e <= 65535)) \/
    e = Flush.
Proof.
  rewrite parse_report_emitted. intros Hes. injection Hes as <-.
  intros p e Hin.
  destruct (events_of_reports_in _ _ _ _ _ Hin)
    as (_ & [(old & ->)|[->|(r & Hr & He)]]).
  - left. split; [reflexivity|left; reflexivity].
  - right. right. reflexivity.
  - destruct (wire_reports_ranges _ _ _ Hr) as (Hx & Hy & Hts).
    unfold report_group in He. cbn [In] in He.
    assert (Hb : forall b : bool, Z.b2z b = 0 \/ Z.b2z b = 1)
      by (intros []; [right|left]; reflexivity).
    destruct He as [<-|[<-|[<-|[<-|[<-|[<-|[<-|[<-|[<-|[<-|[]]]]]]]]]]];
      try (left; split; [reflexivity|apply Hb]);
      try (right; right; reflexivity);
      right; left; (split; [reflexivity|]);
      cbn [ev_code ev_value SetAxis axis_code];
      intros [Hc|[Hc|Hc]]; try discriminate Hc; assumption.
Qed.

End StreamClaims.

Section FlatReports.
Context {H : ipts_headers}.

Lemma ntrig_reports_flat d r :
  In r (wire_reports true d) ->
  altitude r = 0 /\ timestamp r = u16 (buffer d).
Proof.
  unfold wire_reports. intros Hin.
  apply in_map_iff in Hin. destruct Hin as (i & <- & _).
  split; reflexivity.
Qed.

Lemma flat_report_tilt r : altitude r = 0 -> report_tilt r = (0, 0).
Proof. intros Halt. unfold report_tilt. rewrite Halt. reflexivity. Qed.

End FlatReports.

Section MoreStreamClaims.
Context {H : ipts_headers}.

(** Reports without altitude are handled the same way whatever the tilt
    routine is. *)
Lemma handle_flat_reports_any_tilt f rs : forall w,
  (forall r, In r rs -> altitude r = 0) ->
  @handle_reports (with_tilt H f) rs w = @handle_reports H rs w.
Proof.
  induction rs as [|r rs IH]; intros w Hflat; [reflexivity|].
  change (@handle_reports (with_tilt H f) (r :: rs) w)
    with (@handle_reports (with_tilt H f) rs
            (exec (@ipts_stylus_handle_report (with_tilt H f) r) w)).
  change (@handle_reports H (r :: rs) w)
    with (@handle_reports H rs (exec (@ipts_stylus_handle_report H r) w)).
  rewrite IH by (intros r' Hr'; apply Hflat; right; exact Hr').
  f_equal.
  rewrite (@handle_report_exec (with_tilt H f)), (@handle_report_exec H).
  unfold after_report.
  rewrite (@flat_report_tilt (with_tilt H f)), (@flat_report_tilt H)
    by (apply Hflat; left; reflexivity).
  reflexivity.
Qed.

(** X5: in a session with the NTRIG quirk every event on the TiltX and
    TiltY axes carries 0 and every event on the Misc axis carries the buffer
    id (as a 16-bit value); the tilt routine has no influence on what
    decoding does. *)
Theorem legacy_stream_has_no_tilt (d : ipts_touch_data) (w : world)
    (es : list (input_dev_ptr * input_event)) :
  is_ntrig w = true ->
  emitted_by (ipts_stylus_parse_report d) w = Some es ->
  (forall p e, In (p, e) es -> ev_type e = EV_ABS ->
     (ev_code e = ABS_TILT_X \/ ev_code e = ABS_TILT_Y -> ev_value e = 0) /\
     (ev_code e = ABS_MISC -> ev_value e = u16 (buffer d))) /\
  (forall f,
     @ipts_stylus_parse_report (with_tilt H f) d w =
     @ipts_stylus_parse_report H d w).
Proof.
  intros Hq. rewrite parse_report_emitted, Hq.
  intros Hes. injection Hes as <-.
  split.
  - intros p e Hin Hty.
    destruct (events_of_reports_in _ _ _ _ _ Hin)
      as (_ & [(old & ->)|[->|(r & Hr & He)]]);
      try discriminate Hty.
    destruct (ntrig_reports_flat _ _ Hr) as (Halt & Hts).
    rewrite (flat_report_tilt _ Halt) in He.
    unfold report_group in He. cbn [In fst snd] in He.
    destruct He as [<-|[<-|[<-|[<-|[<-|[<-|[<-|[<-|[<-|[<-|[]]]]]]]]]]];
      try discriminate Hty;
      cbn [ev_code ev_value SetAxis axis_code];
      (split; [intros [Hc|Hc]|intros Hc]);
      try discriminate Hc; try reflexivity; exact Hts.
  - intros f.
    rewrite (@parse_report_spec (with_tilt H f)), (@parse_report_spec H).
    change (@is_ntrig (with_tilt H f) w) with (@is_ntrig H w).
    rewrite Hq.
    change (@wire_reports (with_tilt H f) true d)
      with (@wire_reports H true d).
    rewrite handle_flat_reports_any_tilt; [reflexivity|].
    intros r Hr. apply (ntrig_reports_flat _ _ Hr).
Qed.

(** X7: decoding one buffer and then another handles the records of the
    first followed by the records of the second, in the wire format of the
    session, and queues the events of the second after those of the
    first. *)
Theorem decode_two_buffers (d1 d2 : ipts_touch_data) (w w1 w2 : world) :
  ipts_stylus_parse_report d1 w = Some w1 ->
  ipts_stylus_parse_report d2 w1 = Some w2 ->
  w2 = handle_reports
         (wire_reports (is_ntrig w) d1 ++ wire_reports (is_ntrig w) d2) w /\
  events (input w2) =
    events (input w) ++
    events_of_reports (stylus (ipts w)) (stylus_tool (ipts w))
      (wire_reports (is_ntrig w) d1) ++
    events_of_reports (stylus (ipts w)) (stylus_tool (ipts w1))
      (wire_reports (is_ntrig w) d2).
Proof.
  rewrite !parse_report_spec.
  intros H1 H2. injection H1 as <-. injection H2 as <-.
  rewrite handle_reports_is_ntrig.
  split.
  - rewrite handle_reports_app. reflexivity.
  - rewrite !handle_reports_events.
    destruct (handle_reports_frame (wire_reports (is_ntrig w) d1) w)
      as (-> & _).
    rewrite <- app_assoc. reflexivity.
Qed.

(** X8: decoding hands only the session's device to the input core: when
    that device is live the fault flag is left as it is; when it is not
    (a null or stale pointer) and the buffer has a record, the flag is
    raised. *)
Theorem decode_faults_iff_device_not_live (d : ipts_touch_data) (w w' : world) :
  ipts_stylus_parse_report d w = Some w' ->
  (is_live (input w) (stylus (ipts w)) = true ->
     fault (input w') = fault (input w)) /\
  (is_live (input w) (stylus (ipts w)) = false -> data_u8 d 32 <> 0 ->
     fault (input w') = true).
Proof.
  rewrite parse_report_spec. intros Hw. injection Hw as <-.
  rewrite handle_reports_fault. split.
  - intros ->. simpl. apply orb_false_r.
  - intros -> Hc.
    pose proof (wire_reports_nonempty (is_ntrig w) d Hc) as Hne.
    destruct (wire_reports (is_ntrig w) d); [congruence|].
    simpl. apply orb_true_r.
Qed.

End MoreStreamClaims.

(** ** One active tool *)

Lemma truthy_b2z (b : bool) : truthy (Z.b2z b) = b.
Proof. destruct b; reflexivity. Qed.

Lemma press_key st dev code b :
  press st (dev, key_event code b) =
  (if code =? BTN_TOOL_PEN then b else fst st,
   if code =? BTN_TOOL_RUBBER then b else snd st).
Proof. unfold press. cbn. rewrite truthy_b2z. reflexivity. Qed.

Lemma press_axis st dev a v : press st (dev, SetAxis a v) = st.
Proof. reflexivity. Qed.

Lemma press_flush st dev : press st (dev, Flush) = st.
Proof. reflexivity. Qed.

Lemma always_one_tool_app st l1 : forall l2,
  always_one_tool st (l1 ++ l2) =
  always_one_tool st l1 && always_one_tool (keys_after st l1) l2.
Proof.
  revert st. induction l1 as [|pe l1 IH]; intros st l2.
  - cbn [app keys_after fold_left always_one_tool].
    destruct l2; cbn [always_one_tool]; destruct (one_tool st); reflexivity.
  - cbn [app always_one_tool keys_after fold_left].
    rewrite IH. unfold keys_after. rewrite andb_assoc. reflexivity.
Qed.

Lemma keys_after_app st l1 l2 :
  keys_after st (l1 ++ l2) = keys_after (keys_after st l1) l2.
Proof. apply fold_left_app. Qed.

Lemma always_one_tool_prefix l : forall st pre suf,
  always_one_tool st l = true -> l = pre ++ suf ->
  one_tool (keys_after st pre) = true.
Proof.
  intros st pre suf Hall ->.
  rewrite always_one_tool_app in Hall.
  apply andb_prop in Hall. destruct Hall as [_ Hall].
  destruct suf; cbn [always_one_tool] in Hall;
    apply andb_prop in Hall; apply Hall.
Qed.

Section OneTool.
Context {H : ipts_headers}.

(** One report keeps at most one tool down at every point of its events,
    and leaves no tool but its own down. *)
Lemma report_keeps_one_tool dev tool st r :
  idle_but tool st ->
  always_one_tool st
    (map (pair dev)
       ((if tool =? report_tool r then [] else switch_pair tool) ++
        report_group (report_tool r) r
          (fst (report_tilt r)) (snd (report_tilt r)))) = true /\
  idle_but (report_tool r)
    (keys_after st
       (map (pair dev)
          ((if tool =? report_tool r then [] else switch_pair tool) ++
           report_group (report_tool r) r
             (fst (report_tilt r)) (snd (report_tilt r))))).
Proof.
  destruct st as [pen rub]. intros [Hp Hr]. cbn [fst snd] in Hp, Hr.
  unfold report_group, switch_pair, SetTouch, SetButton, idle_but.
  generalize (mode_proximity r) (mode_touch r) (mode_button r).
  intros prox touch button.
  destruct (report_tool_pen_or_rubber r) as [Ht|Ht]; rewrite Ht;
    destruct (Z.eqb_spec tool BTN_TOOL_PEN) as [Hpen|Hpen];
    destruct (Z.eqb_spec tool BTN_TOOL_RUBBER) as [Hrub|Hrub];
    try (rewrite Hpen in Hrub; discriminate Hrub);
    try (specialize (Hp Hpen)); try (specialize (Hr Hrub));
    subst;
    cbn [map app always_one_tool keys_after fold_left];
    rewrite ?press_key, ?press_axis, ?press_flush;
    cbn [fst snd];
    repeat match goal with
           | |- context [?a =? ?b] =>
               first [ rewrite (proj2 (Z.eqb_neq a b)) by assumption
                     | change (a =? b) with false
                     | change (a =? b) with true ]
           end;
    cbn [fst snd one_tool andb negb];
    (split; [repeat match goal with b : bool |- _ => destruct b end;
             reflexivity|]);
    (split; intros Hne; try reflexivity; try (exfalso; apply Hne; reflexivity)).
Qed.

Lemma reports_keep_one_tool dev rs : forall tool st,
  idle_but tool st ->
  always_one_tool st (events_of_reports dev tool rs) = true /\
  idle_but (List.last (map report_tool rs) tool)
    (keys_after st (events_of_reports dev tool rs)).
Proof.
  induction rs as [|r rs IH]; intros tool st Hidle.
  - cbn. split; [|exact Hidle].
    destruct st as [pen rub]. destruct Hidle as [Hp Hr].
    cbn [fst snd] in *.
    destruct (Z.eqb_spec tool BTN_TOOL_PEN) as [->|Hpen].
    + rewrite Hr by discriminate. destruct pen; reflexivity.
    + rewrite (Hp Hpen). reflexivity.
  - cbn [events_of_reports map].
    destruct (report_keeps_one_tool dev tool st r Hidle) as [Hone Hnext].
    destruct (IH _ _ Hnext) as [Hrest Hend].
    rewrite always_one_tool_app, keys_after_app, Hone, Hrest, last_cons.
    split; [reflexivity|exact Hend].
Qed.

(** X3: if no tool other than the session's active tool is down when a
    buffer is decoded, then at every point of the emitted stream at most
    one of the pen and the rubber is down, and at the end no tool other
    than the new active tool is down. *)
Theorem one_active_tool (d : ipts_touch_data) (w w' : world)
    (es : list (input_dev_ptr * input_event)) (st : tool_keys) :
  idle_but (stylus_tool (ipts w)) st ->
  ipts_stylus_parse_report d w = Some w' ->
  emitted_by (ipts_stylus_parse_report d) w = Some es ->
  (forall pre suf, es = pre ++ suf -> one_tool (keys_after st pre) = true) /\
  idle_but (stylus_tool (ipts w')) (keys_after st es).
Proof.
  intros Hidle. rewrite parse_report_emitted, parse_report_spec.
  intros Hw Hes. injection Hw as <-. injection Hes as <-.
  destruct (reports_keep_one_tool (stylus (ipts w))
              (wire_reports (is_ntrig w) d) _ _ Hidle) as [Hall Hend].
  split.
  - intros pre suf Hsplit.
    exact (always_one_tool_prefix _ _ _ _ Hall Hsplit).
  - rewrite handle_reports_tool. exact Hend.
Qed.

End OneTool.

(** ** Further properties of the device life cycle *)

Lemma unregister_put p d w :
  p ∈ registered (input w) ->
  input_unregister_device (Some p) (put_dev p d w) =
  (tt, {| ipts := ipts w;
          input := {| devices := delete p (devices (input w));
                      registered := registered (input w) ∖ {[p]};
                      events := events (input w); klog := klog (input w);
                      fault := fault (input w) |} |}).
Proof.
  intros Hreg.
  destruct w as [c [ds rg evs kl ft]]. cbn [input registered] in Hreg.
  unfold input_unregister_device, put_dev. run_core.
  rewrite lookup_insert_eq.
  rewrite bool_decide_eq_true_2 by (eexists; reflexivity).
  rewrite bool_decide_eq_true_2 by exact Hreg.
  cbn [andb]. rewrite delete_insert_eq. reflexivity.
Qed.

Section MoreLifecycle.
Context {H : ipts_headers}.

(** The run of a successful [ipts_stylus_init], with the device it leaves
    registered. *)
Lemma init_success_run (w : world) :
  ipts_stylus_init true 0 w =
  (0, mark_registered (new_dev w)
        (put_dev (new_dev w) (stylus_device (ipts w))
           (with_ipts (init_context w) w))).
Proof.
  assert (Hex : exists d,
    ipts_stylus_init true 0 w =
      (0, mark_registered (new_dev w)
            (put_dev (new_dev w) d (with_ipts (init_context w) w))) /\
    d = stylus_device (ipts w)).
  { eexists. split.
    - unfold ipts_stylus_init.
      step ltac:(apply allocate_run).
      unfold set_stylus.
      eapply bind_to.
      { eapply bind_to; [apply get_ipts_run | apply set_ipts_put]. }
      step ltac:(apply get_ipts_run).
      cbn [stylus ipts put_dev with_ipts].
      unfold set_stylus_tool.
      eapply bind_to.
      { eapply bind_to; [apply get_ipts_run | apply set_ipts_put]. }
      step ltac:(apply get_ipts_run).
      cbn [stylus stylus_tool quirks device_info ipts put_dev with_ipts].
      do 18 (step ltac:(apply update_dev_put)).
      step ltac:(apply register_put).
      reflexivity.
    - unfold stylus_device, u16.
      generalize (BUS_MEI mod 65536)
                 (vendor_id (device_info (ipts w)) mod 65536)
                 (device_id (device_info (ipts w)) mod 65536)
                 (fw_rev (device_info (ipts w)) mod 65536).
      intros bus ven pro ver.
      destruct (truthy _); vm_compute; reflexivity. }
  destruct Hex as (d & Hrun & ->). exact Hrun.
Qed.

(** X9: a successful [ipts_stylus_init] adds one device to the input
    core, at a pointer that was not in use, and registers it; the device is
    [stylus_device]: direct pointer device, the event types SYN, KEY and
    ABS, the six axes with their ranges and resolutions (the pressure
    maximum being 1024 with the NTRIG quirk and 4096 without), the four
    keys, the identity of the context in 16-bit fields and the fixed
    names.  Nothing else in the core changes, and the context gets the
    pointer and the pen as tool. *)
Theorem init_registers_configured_device (w : world) :
  result (ipts_stylus_init true 0) w = 0 /\
  devices (input w) !! new_dev w = None /\
  (devices (input (exec (ipts_stylus_init true 0) w)) =
     <[new_dev w := stylus_device (ipts w)]> (devices (input w))) /\
  (registered (input (exec (ipts_stylus_init true 0) w)) =
     {[new_dev w]} ∪ registered (input w)) /\
  events (input (exec (ipts_stylus_init true 0) w)) = events (input w) /\
  klog (input (exec (ipts_stylus_init true 0) w)) = klog (input w) /\
  fault (input (exec (ipts_stylus_init true 0) w)) = fault (input w) /\
  ipts (exec (ipts_stylus_init true 0) w) =
    {| stylus := Some (new_dev w); stylus_tool := BTN_TOOL_PEN;
       quirks := quirks (ipts w); device_info := device_info (ipts w) |}.
Proof.
  unfold result, exec. rewrite init_success_run.
  split; [reflexivity|]. split; [apply new_dev_fresh|].
  repeat split.
Qed.

(** X10: when the device cannot be allocated, [ipts_stylus_init] returns
    [-ENOMEM] before touching anything else: the input core and the active
    tool are as before and the device pointer is null, so that a following
    [ipts_stylus_free] does nothing. *)
Theorem init_without_memory (reg : Z) (w : world) :
  result (ipts_stylus_init false reg) w = - ENOMEM /\
  input (exec (ipts_stylus_init false reg) w) = input w /\
  stylus (ipts (exec (ipts_stylus_init false reg) w)) = None /\
  stylus_tool (ipts (exec (ipts_stylus_init false reg) w)) =
    stylus_tool (ipts w) /\
  exec ipts_stylus_free (exec (ipts_stylus_init false reg) w) =
    exec (ipts_stylus_init false reg) w.
Proof.
  assert (Hrun : exec (ipts_stylus_init false reg) w =
                 with_ipts {| stylus := None;
                              stylus_tool := stylus_tool (ipts w);
                              quirks := quirks (ipts w);
                              device_info := device_info (ipts w) |} w)
    by (unfold exec; rewrite init_no_memory; reflexivity).
  rewrite Hrun. unfold result. rewrite init_no_memory.
  repeat split.
Qed.

(** X11: bringing the device up and tearing it down again gives the input
    core back as it was (given that its registered devices were live), but
    [ipts_stylus_free] leaves the pointer in the context, which from then
    on points to no live device. *)
Theorem init_then_free_restores_core (w : world) :
  core_ok (input w) ->
  input (exec ipts_stylus_free (exec (ipts_stylus_init true 0) w)) = input w /\
  stylus (ipts (exec ipts_stylus_free (exec (ipts_stylus_init true 0) w))) =
    Some (new_dev w) /\
  is_live (input (exec ipts_stylus_free (exec (ipts_stylus_init true 0) w)))
    (Some (new_dev w)) = false.
Proof.
  intros Hok.
  pose proof (new_dev_fresh w) as Hfresh.
  assert (Hnot : new_dev w ∉ registered (input w)).
  { intros Hin. apply Hok in Hin. apply elem_of_dom in Hin.
    rewrite Hfresh in Hin. destruct Hin as [? ?]. discriminate. }
  assert (Hrun : exec ipts_stylus_free (exec (ipts_stylus_init true 0) w) =
    {| ipts := init_context w;
       input := {| devices := devices (input w);
                   registered := ({[new_dev w]} ∪ registered (input w))
                                 ∖ {[new_dev w]};
                   events := events (input w); klog := klog (input w);
                   fault := fault (input w) |} |}).
  { unfold exec at 2. rewrite init_success_run. cbn [snd].
    change (mark_registered (new_dev w)
              (put_dev (new_dev w) (stylus_device (ipts w))
                 (with_ipts (init_context w) w)))
      with (put_dev (new_dev w) (stylus_device (ipts w))
              (mark_registered (new_dev w) (with_ipts (init_context w) w))).
    unfold exec, ipts_stylus_free.
    erewrite bind_to; [|apply get_ipts_run|reflexivity].
    cbn [stylus ipts put_dev mark_registered with_ipts init_context].
    rewrite (unregister_put (new_dev w) (stylus_device (ipts w))
               (mark_registered (new_dev w) (with_ipts (init_context w) w)))
      by (cbn [mark_registered with_ipts input registered];
          apply elem_of_union_l, elem_of_singleton; reflexivity).
    cbn [snd ipts input mark_registered with_ipts
         devices registered events klog fault].
    rewrite delete_id by exact Hfresh. reflexivity. }
  rewrite Hrun. cbn [ipts input stylus init_context devices is_live].
  split; [|split].
  - destruct w as [c [ds rg evs kl ft]].
    cbn [input devices registered events klog fault] in *.
    f_equal. set_solver.
  - reflexivity.
  - rewrite Hfresh. apply bool_decide_eq_false_2.
    intros [? ?]. discriminate.
Qed.

(** X12: the life-cycle functions and the decoder keep the registered
    devices of the input core live. *)
Theorem core_ok_is_kept (w : world) :
  core_ok (input w) ->
  (forall alloc_ok reg,
     core_ok (input (exec (ipts_stylus_init alloc_ok reg) w))) /\
  core_ok (input (exec ipts_stylus_free w)) /\
  (forall d w', ipts_stylus_parse_report d w = Some w' -> core_ok (input w')).
Proof.
  intros Hok. unfold core_ok in *. split; [|split].
  - intros [|] reg.
    + destruct (init_run reg w) as (dv & Hrun & _).
      unfold exec. rewrite Hrun. cbn [snd].
      destruct (reg =? 0);
        cbn [mark_registered put_dev log_err with_ipts input devices
             registered set_devices].
      * rewrite dom_insert_L. set_solver.
      * exact Hok.
    + unfold exec. rewrite init_no_memory. exact Hok.
  - destruct w as [[[p|] tool q di] [ds rg evs kl ft]];
      cbn [input devices registered] in *.
    + unfold exec, ipts_stylus_free, input_unregister_device, get_ipts.
      run_core. cbn [stylus snd].
      destruct (bool_decide _ && bool_decide _);
        cbn [snd input devices registered]; [|exact Hok].
      rewrite dom_delete_L. set_solver.
    + exact Hok.
  - intros d w' Hw. rewrite parse_report_spec in Hw. injection Hw as <-.
    destruct (handle_reports_frame (wire_reports (is_ntrig w) d) w)
      as (_ & _ & _ & -> & -> & _).
    exact Hok.
Qed.

End MoreLifecycle.

(** ** The further properties at concrete inputs *)

Lemma decode_frame_witness :
  @ipts_stylus_parse_report sample_headers two_records_ntrig (session 1) =
    Some (decoded two_records_ntrig (session 1)) /\
  devices (input (decoded two_records_ntrig (session 1))) =
    devices (input (session 1)).
Proof.
  assert (Hrun : @ipts_stylus_parse_report sample_headers two_records_ntrig
                   (session 1) =
                 Some (decoded two_records_ntrig (session 1)))
    by (vm_compute; reflexivity).
  split; [exact Hrun|].
  exact (proj1 (proj2 (proj2 (proj2
           (@decode_frame sample_headers two_records_ntrig (session 1)
              (decoded two_records_ntrig (session 1)) Hrun))))).
Defined.

Lemma decode_leaves_last_tool_witness :
  @ipts_stylus_parse_report sample_headers two_records_ntrig (session 1) =
    Some (decoded two_records_ntrig (session 1)) /\
  stylus_tool (ipts (decoded two_records_ntrig (session 1))) =
    List.last
      (map (@report_tool sample_headers)
         (@wire_reports sample_headers
            (@is_ntrig sample_headers (session 1)) two_records_ntrig))
      (stylus_tool (ipts (session 1))).
Proof.
  assert (Hrun : @ipts_stylus_parse_report sample_headers two_records_ntrig
                   (session 1) =
                 Some (decoded two_records_ntrig (session 1)))
    by (vm_compute; reflexivity).
  split; [exact Hrun|].
  exact (proj1 (@decode_leaves_last_tool sample_headers two_records_ntrig
                  (session 1) (decoded two_records_ntrig (session 1)) Hrun)).
Defined.

Lemma one_active_tool_witness :
  idle_but (stylus_tool (ipts (session 1))) (true, false) /\
  idle_but (stylus_tool (ipts (decoded two_records_ntrig (session 1))))
    (keys_after (true, false) (decoded_events two_records_ntrig (session 1))).
Proof.
  assert (Hidle : idle_but (stylus_tool (ipts (session 1))) (true, false)).
  { split; intros Hne; [exfalso; apply Hne|]; reflexivity. }
  split; [exact Hidle|].
  refine (proj2 (@one_active_tool sample_headers two_records_ntrig
                   (session 1) (decoded two_records_ntrig (session 1))
                   (decoded_events two_records_ntrig (session 1))
                   (true, false) Hidle _ _)); vm_compute; reflexivity.
Defined.

Lemma decoded_stream_shape_witness :
  emitted_by (@ipts_stylus_parse_report sample_headers two_records_ntrig)
    (session 1) = Some (decoded_events two_records_ntrig (session 1)) /\
  (10 * Z.to_nat (data_u8 two_records_ntrig 32) <=
   length (decoded_events two_records_ntrig (session 1)) <=
   12 * Z.to_nat (data_u8 two_records_ntrig 32))%nat.
Proof.
  assert (Hes : emitted_by
                  (@ipts_stylus_parse_report sample_headers two_records_ntrig)
                  (session 1) =
                Some (decoded_events two_records_ntrig (session 1)))
    by (vm_compute; reflexivity).
  split; [exact Hes|].
  exact (proj1 (proj2 (@decoded_stream_shape sample_headers two_records_ntrig
                         (session 1) _ Hes))).
Defined.

Lemma legacy_stream_has_no_tilt_witness :
  @is_ntrig sample_headers (session 1) = true /\
  emitted_by (@ipts_stylus_parse_report sample_headers two_records_ntrig)
    (session 1) = Some (decoded_events two_records_ntrig (session 1)) /\
  @ipts_stylus_parse_report
     (with_tilt sample_headers (fun _ _ => (1, 1))) two_records_ntrig
     (session 1) =
  @ipts_stylus_parse_report sample_headers two_records_ntrig (session 1).
Proof.
  assert (Hq : @is_ntrig sample_headers (session 1) = true)
    by (vm_compute; reflexivity).
  assert (Hes : emitted_by
                  (@ipts_stylus_parse_report sample_headers two_records_ntrig)
                  (session 1) =
                Some (decoded_events two_records_ntrig (session 1)))
    by (vm_compute; reflexivity).
  split; [exact Hq|]. split; [exact Hes|].
  exact (proj2 (@legacy_stream_has_no_tilt sample_headers two_records_ntrig
                  (session 1) _ Hq Hes) (fun _ _ => (1, 1))).
Defined.

Lemma decoded_events_are_well_formed_witness :
  emitted_by (@ipts_stylus_parse_report sample_headers one_record)
    (session 0) = Some (decoded_events one_record (session 0)) /\
  ((ev_type (SetAxis X 100) = EV_KEY /\
    (ev_value (SetAxis X 100) = 0 \/ ev_value (SetAxis X 100) = 1)) \/
   (ev_type (SetAxis X 100) = EV_ABS /\
    (ev_code (SetAxis X 100) = ABS_X \/ ev_code (SetAxis X 100) = ABS_Y \/
     ev_code (SetAxis X 100) = ABS_MISC ->
     0 <= ev_value (SetAxis X 100) <= 65535)) \/
   SetAxis X 100 = Flush).
Proof.
  assert (Hes : emitted_by
                  (@ipts_stylus_parse_report sample_headers one_record)
                  (session 0) =
                Some (decoded_events one_record (session 0)))
    by (vm_compute; reflexivity).
  split; [exact Hes|].
  refine (@decoded_events_are_well_formed sample_headers one_record
            (session 0) _ Hes (Some 1%positive) (SetAxis X 100) _).
  vm_compute. tauto.
Defined.

Lemma decode_two_buffers_witness :
  @ipts_stylus_parse_report sample_headers one_record (session 0) =
    Some (decoded one_record (session 0)) /\
  @ipts_stylus_parse_report sample_headers heavy_buffer
    (decoded one_record (session 0)) =
    Some (decoded heavy_buffer (decoded one_record (session 0))) /\
  decoded heavy_buffer (decoded one_record (session 0)) =
    @handle_reports sample_headers
      (@wire_reports sample_headers (@is_ntrig sample_headers (session 0))
         one_record ++
       @wire_reports sample_headers (@is_ntrig sample_headers (session 0))
         heavy_buffer) (session 0).
Proof.
  assert (H1 : @ipts_stylus_parse_report sample_headers one_record
                 (session 0) = Some (decoded one_record (session 0)))
    by (vm_compute; reflexivity).
  assert (H2 : @ipts_stylus_parse_report sample_headers heavy_buffer
                 (decoded one_record (session 0)) =
               Some (decoded heavy_buffer (decoded one_record (session 0))))
    by (vm_compute; reflexivity).
  split; [exact H1|]. split; [exact H2|].
  exact (proj1 (@decode_two_buffers sample_headers one_record heavy_buffer
                  (session 0) _ _ H1 H2)).
Defined.

Lemma decode_faults_iff_device_not_live_witness :
  (is_live (input (session 0)) (stylus (ipts (session 0))) = true /\
   fault (input (decoded one_record (session 0))) = fault (input (session 0)))
  /\
  (is_live (input (boot 0)) (stylus (ipts (boot 0))) = false /\
   data_u8 one_record 32 <> 0 /\
   fault (input (decoded one_record (boot 0))) = true).
Proof.
  assert (Hlive : is_live (input (session 0)) (stylus (ipts (session 0)))
                  = true) by (vm_compute; reflexivity).
  assert (Hnull : is_live (input (boot 0)) (stylus (ipts (boot 0))) = false)
    by reflexivity.
  assert (Hc : data_u8 one_record 32 <> 0) by (vm_compute; discriminate).
  assert (H0 : @ipts_stylus_parse_report sample_headers one_record
                 (session 0) = Some (decoded one_record (session 0)))
    by (vm_compute; reflexivity).
  assert (H1 : @ipts_stylus_parse_report sample_headers one_record
                 (boot 0) = Some (decoded one_record (boot 0)))
    by (vm_compute; reflexivity).
  split.
  - split; [exact Hlive|].
    exact (proj1 (@decode_faults_iff_device_not_live sample_headers
                    one_record (session 0) _ H0) Hlive).
  - split; [exact Hnull|]. split; [exact Hc|].
    exact (proj2 (@decode_faults_iff_device_not_live sample_headers
                    one_record (boot 0) _ H1) Hnull Hc).
Defined.

Lemma boot_core_ok : core_ok (input (boot 0)).
Proof.
  unfold core_ok.
  refine (bool_decide_unpack _ _). vm_compute. exact I.
Defined.

Lemma init_then_free_restores_core_witness :
  core_ok (input (boot 0)) /\
  input (exec (@ipts_stylus_free)
           (exec (@ipts_stylus_init sample_headers true 0) (boot 0))) =
  input (boot 0).
Proof.
  split; [exact boot_core_ok|].
  exact (proj1 (@init_then_free_restores_core sample_headers (boot 0)
                  boot_core_ok)).
Defined.

Lemma core_ok_is_kept_witness :
  core_ok (input (boot 0)) /\
  core_ok (input (exec (@ipts_stylus_init sample_headers true 0) (boot 0))).
Proof.
  split; [exact boot_core_ok|].
  exact (proj1 (@core_ok_is_kept sample_headers (boot 0) boot_core_ok) true 0).
Defined.

(** ** Tool changes and tilt *)

Section SwitchesAndTilt.
Context {H : ipts_headers}.

Lemma events_of_reports_exact_length dev rs : forall tool,
  length (events_of_reports dev tool rs) =
  (10 * length rs + 2 * tool_changes tool (map report_tool rs))%nat.
Proof.
  induction rs as [|r rs IH]; intros tool; [reflexivity|].
  cbn [events_of_reports map tool_changes].
  rewrite length_app, length_map, length_app, IH.
  destruct (tool =? report_tool r); simpl length; lia.
Qed.

(** X13: the switch pair is emitted exactly at the tool changes: a buffer
    of [count] records adds ten events per record and two per change of
    tool along the sequence that starts with the session's active tool and
    goes through the tools of the records. *)
Theorem stream_length_counts_tool_changes (d : ipts_touch_data) (w : world)
    (es : list (input_dev_ptr * input_event)) :
  emitted_by (ipts_stylus_parse_report d) w = Some es ->
  length es =
  (10 * Z.to_nat (data_u8 d 32) +
   2 * tool_changes (stylus_tool (ipts w))
         (map report_tool (wire_reports (is_ntrig w) d)))%nat.
Proof.
  rewrite parse_report_emitted. intros Hes. injection Hes as <-.
  rewrite events_of_reports_exact_length.
  pose proof (wire_reports_length (is_ntrig w) d). lia.
Qed.

(** X14: for a report with a non-zero altitude the values sent on the TiltX
    and TiltY axes are the pair the tilt routine gives for the altitude and
    the azimuth of the report; they are the last events before the
    flush. *)
Theorem tilt_is_the_converted_pair (r : ipts_stylus_report) (w : world) :
  altitude r <> 0 ->
  exists pre,
    emitted (ipts_stylus_handle_report r) w =
    pre ++
    map (pair (stylus (ipts w)))
      [ SetAxis TiltX
          (fst (ipts_math_altitude_azimuth_to_tilt (altitude r) (azimuth r)));
        SetAxis TiltY
          (snd (ipts_math_altitude_azimuth_to_tilt (altitude r) (azimuth r)));
        Flush ].
Proof.
  intros Halt.
  assert (Htilt : report_tilt r =
                  ipts_math_altitude_azimuth_to_tilt (altitude r) (azimuth r)).
  { unfold report_tilt.
    apply truthy_true in Halt. rewrite Halt. reflexivity. }
  rewrite handle_report_emitted, Htilt.
  exists (map (pair (stylus (ipts w)))
            ((if stylus_tool (ipts w) =? report_tool r then []
              else switch_pair (stylus_tool (ipts w))) ++
             [ SetTouch (mode_touch r);
               key_event (report_tool r) (mode_proximity r);
               SetButton (mode_button r);
               SetAxis X (x r); SetAxis Y (y r);
               SetAxis Pressure (pressure r);
               SetAxis Misc (timestamp r) ])).
  rewrite <- map_app, <- app_assoc. reflexivity.
Qed.

End SwitchesAndTilt.

Lemma stream_length_counts_tool_changes_witness :
  emitted_by (@ipts_stylus_parse_report sample_headers two_records_ntrig)
    (session 1) = Some (decoded_events two_records_ntrig (session 1)) /\
  length (decoded_events two_records_ntrig (session 1)) = 22%nat.
Proof.
  assert (Hes : emitted_by
                  (@ipts_stylus_parse_report sample_headers two_records_ntrig)
                  (session 1) =
                Some (decoded_events two_records_ntrig (session 1)))
    by (vm_compute; reflexivity).
  split; [exact Hes|].
  exact (@stream_length_counts_tool_changes sample_headers two_records_ntrig
           (session 1) _ Hes).
Defined.

Lemma tilt_is_the_converted_pair_witness :
  altitude tilted_report <> 0 /\
  exists pre,
    emitted (@ipts_stylus_handle_report sample_headers tilted_report)
      (session 0) =
    pre ++
    map (pair (stylus (ipts (session 0))))
      [ SetAxis TiltX 30; SetAxis TiltY 60; Flush ].
Proof.
  assert (Halt : altitude tilted_report <> 0) by discriminate.
  split; [exact Halt|].
  exact (@tilt_is_the_converted_pair sample_headers tilted_report
           (session 0) Halt).
Defined.
